(** * hw1.py: backup and health checks for a fleet of network devices

    A shallow embedding of [src/hw1.py].  Pure string code becomes Rocq
    functions on [string]; code that talks to a device, to the file system
    or to the terminal becomes a computation in a state-and-exception monad
    over an explicit [world].  The Netmiko library is not part of the
    program: it is an interface ([Netmiko]) and every theorem holds for every
    implementation of it. *)

From Stdlib Require Import Ascii.
From stdpp Require Import gmap strings list fin_maps pretty.

(** ** Python strings

    Device output is text of the IOS command line.  A [str] is modelled as a
    Rocq [string], one character per ASCII code point.  [Str.upper] is
    [str.upper] on ASCII text: it maps the letters [a]..[z] to [A]..[Z] and
    leaves the other ASCII characters alone.  On text with characters outside
    ASCII Python applies the Unicode case mapping, which this model does not
    follow; the statements about what [upper()] gives say that the text is
    ASCII. *)

Module Str.

Definition upper_char (c : ascii) : ascii :=
  let n := nat_of_ascii c in
  if (97 <=? n) && (n <=? 122) then ascii_of_nat (n - 32) else c.

Fixpoint upper (s : string) : string :=
  match s with
  | EmptyString => EmptyString
  | String c s' => String (upper_char c) (upper s')
  end.

(** [s.startswith(p)] *)
Fixpoint startswith (p s : string) : bool :=
  match p, s with
  | EmptyString, _ => true
  | String a p', String b s' => if decide (a = b) then startswith p' s' else false
  | String _ _, EmptyString => false
  end.

(** [s.endswith(c)] for a one-character [c] *)
Fixpoint endswith_char (c : ascii) (s : string) : bool :=
  match s with
  | EmptyString => false
  | String a EmptyString => bool_decide (a = c)
  | String _ s' => endswith_char c s'
  end.

(** [needle in hay] on two [str] *)
Fixpoint contains (needle hay : string) : bool :=
  startswith needle hay ||
  match hay with
  | EmptyString => false
  | String _ hay' => contains needle hay'
  end.

(** [sep.join(l)] *)
Fixpoint join (sep : string) (l : list string) : string :=
  match l with
  | [] => ""
  | [x] => x
  | x :: l' => x +:+ sep +:+ join sep l'
  end.

End Str.

(** ** Exceptions and results *)

Inductive exn :=
  | NameError (name : string)
  | AttributeError
  | IndexError
  | TypeError
  | KeyError (key : string)
  | FileExistsError
  | FileNotFoundError
  | NotADirectoryError
  | IsADirectoryError
  | LibraryError (msg : string).   (* raised inside Netmiko or csv *)

Inductive result (A : Type) :=
  | Ok (a : A)
  | Raise (e : exn).
Arguments Ok {A} a.
Arguments Raise {A} e.

(** ** Data

    [send_command(..., use_textfsm=True)] returns the list of records the
    template produced, or the raw text when no template matched.  A record
    is a [dict] from column names to values; a TextFSM value is a [str] or
    a list of [str]. *)

Inductive field :=
  | FStr (s : string)
  | FList (l : list string).

Inductive output :=
  | NoOutput                                  (* None *)
  | Raw (text : string)                       (* str *)
  | Structured (records : list (gmap string field)).   (* list of dict *)

(** A row of the inventory, as [csv.DictReader] yields it. *)
Abbreviation device := (gmap string string).

(** [d.get(key, default)] *)
Definition dict_get {V} (d : gmap string V) (key : string) (dflt : V) : V :=
  default dflt (d !! key).

(** [d[key]] *)
Definition getitem {V} (d : gmap string V) (key : string) : result V :=
  match d !! key with
  | Some v => Ok v
  | None => Raise (KeyError key)
  end.

(** [v[0]] on a TextFSM value: the first element of a list, the first
    character of a [str]. *)
Definition index0 (v : field) : result string :=
  match v with
  | FList (x :: _) => Ok x
  | FStr (String c _) => Ok (String c EmptyString)
  | FList [] | FStr EmptyString => Raise IndexError
  end.

(** [v.upper()]: only a [str] has the method. *)
Definition field_upper (v : field) : result string :=
  match v with
  | FStr s => Ok (Str.upper s)
  | FList _ => Raise AttributeError
  end.

(** ** The file system

    A map from path strings to nodes, with [os.path] being [posixpath].
    Paths are compared as written: the model is that of a file system for
    paths whose components are names (none is [.] or [..], none holds a NUL),
    without links, permissions or limits on the length of a name; the
    current directory and the root always exist. *)

Inductive node :=
  | Dir
  | File (content : string).

Module Os.

Definition sep : ascii := "/"%char.

Definition is_sep (c : ascii) : bool := bool_decide (c = sep).

Fixpoint all_sep (s : string) : bool :=
  match s with
  | EmptyString => true
  | String c s' => is_sep c && all_sep s'
  end.

Fixpoint has_sep (s : string) : bool :=
  match s with
  | EmptyString => false
  | String c s' => is_sep c || has_sep s'
  end.

(** One round of the loop of [posixpath.join]:
    [if b.startswith(sep) or not path: path = b
     elif path.endswith(sep): path += b
     else: path += sep + b] *)
Definition join_step (path b : string) : string :=
  if Str.startswith "/" b || bool_decide (path = "") then b
  else if Str.endswith_char sep path then path +:+ b
  else path +:+ "/" +:+ b.

(** [os.path.join(a, *p)] *)
Definition join (a : string) (p : list string) : string :=
  foldl join_step a p.

(** [p[:p.rfind(sep) + 1]]: a character belongs to it exactly when a
    separator follows at or after its position. *)
Fixpoint upto_last_sep (p : string) : string :=
  match p with
  | EmptyString => EmptyString
  | String c p' => if has_sep p then String c (upto_last_sep p') else EmptyString
  end.

(** [s.rstrip(sep)] *)
Fixpoint rstrip_sep (s : string) : string :=
  match s with
  | EmptyString => EmptyString
  | String c s' =>
      match rstrip_sep s' with
      | EmptyString => if is_sep c then EmptyString else String c EmptyString
      | r => String c r
      end
  end.

(** [os.path.dirname(p)] *)
Definition dirname (p : string) : string :=
  let head := upto_last_sep p in
  if negb (bool_decide (head = "")) && negb (all_sep head)
  then rstrip_sep head else head.

(** The directories above [p], outermost first: every prefix of [p] that
    stops right before a separator and names something. *)
Fixpoint parents_go (acc p : string) : list string :=
  match p with
  | EmptyString => []
  | String c p' =>
      (if is_sep c && negb (all_sep acc) && negb (Str.endswith_char sep acc)
       then [acc] else [])
      ++ parents_go (acc +:+ String c EmptyString) p'
  end.

Definition parents (p : string) : list string := parents_go "" p.

Definition is_file (fs : gmap string node) (p : string) : bool :=
  match fs !! p with Some (File _) => true | _ => false end.

(** [os.path.exists(p)] *)
Definition path_exists (fs : gmap string node) (p : string) : bool :=
  bool_decide (is_Some (fs !! p)).

(** [os.makedirs(name)]: creates the leaf and every missing directory above
    it.  Fails when the leaf is already there, or when something above it
    is a regular file. *)
Definition makedirs (name : string) (fs : gmap string node)
    : result (gmap string node) :=
  if path_exists fs name then Raise FileExistsError
  else if existsb (is_file fs) (parents name) then Raise NotADirectoryError
  else Ok (foldr (λ d m, <[d := Dir]> m) fs (parents name ++ [name])).

(** [open(p, 'w')]: creates the file or truncates it.  The directory that
    is to hold it must exist. *)
Definition open_w (p : string) (fs : gmap string node)
    : result (gmap string node) :=
  match fs !! p with
  | Some Dir => Raise IsADirectoryError
  | _ =>
      let d := dirname p in
      if all_sep d then Ok (<[p := File ""]> fs)
      else match fs !! d with
           | Some Dir => Ok (<[p := File ""]> fs)
           | Some (File _) => Raise NotADirectoryError
           | None => Raise FileNotFoundError
           end
  end.

(** [file.write(s)] on a file opened at [p] *)
Definition write (p s : string) (fs : gmap string node) : gmap string node :=
  match fs !! p with
  | Some (File old) => <[p := File (old +:+ s)]> fs
  | _ => <[p := File s]> fs
  end.

End Os.

(** ** Netmiko

    What the program uses of a Netmiko connection.  Every call may raise,
    and may change the state of the network ([netstate]): sessions, device
    configuration, whatever the implementation keeps. *)

Class Netmiko := {
  netstate : Type;
  connection : Type;
  ConnectHandler (host username password device_type secret : string)
    : netstate → result connection * netstate;
  conn_enable : connection → netstate → result unit * netstate;
  conn_send_command (c : connection) (command : string) (use_textfsm : bool)
    : netstate → result output * netstate;
  conn_send_config_set : connection → list string → netstate → result unit * netstate;
  conn_disconnect : connection → netstate → result unit * netstate
}.

(** What the program does to the outside, in the order it does it. *)
Inductive event :=
  | EvConnect (host : string)
  | EvEnable
  | EvCommand (command : string) (use_textfsm : bool)
  | EvConfig (commands : list string)
  | EvDisconnect
  | EvSleep (seconds : nat)
  | EvPrint (text : string).

Global Instance event_eq_dec : EqDecision event.
Proof. solve_decision. Defined.

Record datetime := DateTime {
  year : nat; month : nat; day : nat; hour : nat; minute : nat; second : nat
}.

(** [%m], [%d], [%H], [%M], [%S]: two digits *)
Definition pad2 (n : nat) : string :=
  if n <? 10 then "0" +:+ pretty n else pretty n.

(** [now.strftime("%Y_%m_%d-%H_%M_%S")] *)
Definition strftime (now : datetime) : string :=
  pretty (year now) +:+ "_" +:+ pad2 (month now) +:+ "_" +:+ pad2 (day now)
  +:+ "-" +:+ pad2 (hour now) +:+ "_" +:+ pad2 (minute now) +:+ "_" +:+ pad2 (second now).

(** Module constants *)
Definition DEVICE_FILE_PATH : string := "devices.csv".
Definition BACKUP_DIR_PATH : string := "backups".
Definition NTP_SERVER : string := "10.10.0.1".

Section Monad.

Context `{nm : Netmiko}.

Record world := World {
  net : netstate;
  fs : gmap string node;
  trace : list event;
  clock : datetime
}.

Definition set_net (n : netstate) (w : world) : world :=
  World n (fs w) (trace w) (clock w).
Definition set_fs (f : gmap string node) (w : world) : world :=
  World (net w) f (trace w) (clock w).
Definition add_event (e : event) (w : world) : world :=
  World (net w) (fs w) (trace w ++ [e]) (clock w).

(** A computation: runs in a world, returns or raises, leaves a world. *)
Definition M (A : Type) : Type := world → result A * world.

Definition ret {A} (a : A) : M A := λ w, (Ok a, w).

Definition raise {A} (e : exn) : M A := λ w, (Raise e, w).

Definition bind {A B} (m : M A) (k : A → M B) : M B :=
  λ w, match m w with
       | (Ok a, w') => k a w'
       | (Raise e, w') => (Raise e, w')
       end.

(** [try: body / except cls: handler].  The expression [cls] is evaluated
    only once [body] has raised; if evaluating it raises, that exception
    replaces the one being handled. *)
Definition try_except {A} (body : M A) (cls : M (exn → bool)) (handler : M A) : M A :=
  λ w, match body w with
       | (Ok a, w') => (Ok a, w')
       | (Raise e, w') =>
           match cls w' with
           | (Ok handles, w'') => if handles e then handler w'' else (Raise e, w'')
           | (Raise e', w'') => (Raise e', w'')
           end
       end.

(** Reading a global name that neither the module nor [builtins] binds. *)
Definition unbound_name {A} (name : string) : M A := raise (NameError name).

Definition emit (e : event) : M unit := λ w, (Ok (), add_event e w).

(** A call into Netmiko: logged, then run on the state of the network. *)
Definition call {A} (e : event) (f : netstate → result A * netstate) : M A :=
  λ w, let '(r, n) := f (net w) in (r, set_net n (add_event e w)).

Definition print (text : string) : M unit := emit (EvPrint text).

Definition sleep (seconds : nat) : M unit := emit (EvSleep seconds).

(** A pure step that returns or raises. *)
Definition lift {A} (r : result A) : M A := λ w, (r, w).

(** A call into [os] that changes the file system or raises. *)
Definition os_call (f : gmap string node → result (gmap string node)) : M unit :=
  λ w, match f (fs w) with
       | Ok fs' => (Ok (), set_fs fs' w)
       | Raise e => (Raise e, w)
       end.

End Monad.

Notation "'let*' x ':=' m 'in' k" := (bind m (λ x, k))
  (at level 10, x pattern, m at level 100, k at level 200).

Section Program.

Context `{nm : Netmiko}.

(** [csv.DictReader(f, delimiter=',')], applied to the text of the file. *)
Variable DictReader : string → result (list device).

(** Lines 32-49 *)
Definition get_devices_from_file (device_file : string) : M (list device) :=
  λ w, match fs w !! device_file with
       | Some (File text) => (DictReader text, w)
       | Some Dir => (Raise IsADirectoryError, w)
       | None => (Raise FileNotFoundError, w)
       end.

(** Lines 52-58 *)
Definition get_current_date_and_time : M string :=
  λ w, (Ok (strftime (clock w)), w).

(** Lines 61-78.  The five subscripts are evaluated in the order of the
    keyword arguments; the first missing key raises [KeyError]. *)
Definition connect_to_device (device : device) : M connection :=
  let* host := lift (getitem device "ip") in
  let* username := lift (getitem device "username") in
  let* password := lift (getitem device "password") in
  let* device_type := lift (getitem device "device_type") in
  let* secret := lift (getitem device "secret") in
  let* connection := call (EvConnect host)
                          (ConnectHandler host username password device_type secret) in
  let* ip := lift (getitem device "ip") in
  let* _ := print ("Opened connection to " +:+ ip) in
  ret connection.

(** Lines 81-85 *)
Definition disconnect_from_device (connection : connection) (hostname : string) : M unit :=
  let* _ := call EvDisconnect (conn_disconnect connection) in
  print ("Connection to device " +:+ hostname +:+ " terminated").

(** Lines 88-103 *)
Definition get_backup_file_path (hostname timestamp : string) : M string :=
  let* _ := (λ w, if negb (Os.path_exists (fs w) (Os.join BACKUP_DIR_PATH [hostname]))
                  then os_call (Os.makedirs (Os.join BACKUP_DIR_PATH [hostname])) w
                  else (Ok (), w)) in
  let backup_file_path :=
    Os.join BACKUP_DIR_PATH [hostname; hostname +:+ "-" +:+ timestamp +:+ ".txt"] in
  let* _ := print ("Backup file path will be " +:+ backup_file_path) in
  ret backup_file_path.

(** [file.write(output)]: the argument must be a [str]. *)
Definition file_write (path : string) (output : output) : M unit :=
  match output with
  | Raw text => λ w, (Ok (), set_fs (Os.write path text (fs w)) w)
  | _ => raise TypeError
  end.

(** Lines 106-128.  The module binds no name [Error]. *)
Definition create_backup (connection : connection) (backup_file_path hostname : string)
    : M bool :=
  try_except
    (let* _ := call EvEnable (conn_enable connection) in
     let* output := call (EvCommand "sh run" false)
                         (conn_send_command connection "sh run" false) in
     let* _ := os_call (Os.open_w backup_file_path) in
     let* _ := file_write backup_file_path output in
     let* _ := print ("Backup of " +:+ hostname +:+ " is complete!") in
     ret true)
    (unbound_name "Error")
    (let* _ := print ("Error! Unable to backup device " +:+ hostname) in
     ret false).

(** Lines 131-139 *)
Definition check_cdp_neighbours_count (connection : connection) : M string :=
  let* output := call (EvCommand "sh cdp neighbors detail" true)
                      (conn_send_command connection "sh cdp neighbors detail" true) in
  match output with
  | Structured records => ret ("CDP is ON, " +:+ pretty (length records) +:+ " peers")
  | _ => ret "CDP is OFF, 0 peers"
  end.

(** Lines 142-153.  [not output] holds of [None], of the empty [str] and of
    the empty list.  On a non-empty [str], [output[0]] is a one-character
    [str], which has no [get].  The four elements of the tuple are evaluated
    from left to right. *)
Definition check_version (connection : connection) : M (field * string * string * string) :=
  let* output := call (EvCommand "sh ver" true)
                      (conn_send_command connection "sh ver" true) in
  match output with
  | NoOutput | Raw EmptyString | Structured [] => ret (FStr "", "", "", "")
  | Raw (String _ _) => raise AttributeError
  | Structured (first :: _) =>
      let hostname := dict_get first "hostname" (FStr "") in
      let* hardware := lift (index0 (dict_get first "hardware" (FList [""]))) in
      let* version := lift (field_upper (dict_get first "version" (FStr ""))) in
      let* running_image := lift (field_upper (dict_get first "running_image" (FStr ""))) in
      ret (hostname, hardware, version,
           if Str.contains "NPE" running_image then "NPE" else "PE")
  end.

(** Lines 156-160 *)
Definition set_timezone (connection : connection) : M unit :=
  let* _ := print "Setting timezone to +0" in
  call (EvConfig ["clock timezone GMT+0 0"])
       (conn_send_config_set connection ["clock timezone GMT+0 0"]).

(** [needle in output]: substring test on a [str]; on a list of records
    no element equals a [str]; [None] is not iterable. *)
Definition str_in (needle : string) (output : output) : result bool :=
  match output with
  | Raw text => Ok (Str.contains needle text)
  | Structured _ => Ok false
  | NoOutput => Raise TypeError
  end.

Definition newline : string := String (ascii_of_nat 10) EmptyString.

(** Lines 163-173 *)
Definition ping_ntp (connection : connection) (ntp_server : string) : M bool :=
  let* _ := print ("Ping NTP server " +:+ ntp_server) in
  let* output := call (EvCommand ("ping " +:+ ntp_server +:+ newline) false)
                      (conn_send_command connection ("ping " +:+ ntp_server +:+ newline) false) in
  let* unreachable := lift (str_in "....." output) in
  if unreachable : bool then
    let* _ := print "NTP server is not available" in ret false
  else
    let* _ := print "Ok!" in ret true.

(** Lines 176-183 *)
Definition check_ntp (connection : connection) (ntp_server : string) : M string :=
  let* _ := print ("Promoting ntp server " +:+ ntp_server) in
  let* _ := call (EvConfig ["ntp server " +:+ ntp_server])
                 (conn_send_config_set connection ["ntp server " +:+ ntp_server]) in
  let* _ := sleep 4 in
  let* output := call (EvCommand "sh ntp asso" false)
                      (conn_send_command connection "sh ntp asso" false) in
  let* synced := lift (str_in ("*~" +:+ ntp_server) output) in
  ret (if synced : bool then "Clock in Sync" else "Not Sync").

(** [repr] of a list of [str], which is how an f-string renders a list. *)
Variable repr_list : list string → string.

(** [f"{v}"] *)
Definition format_field (v : field) : string :=
  match v with
  | FStr s => s
  | FList l => repr_list l
  end.

(** Lines 186-215 *)
Definition process_target (device : device) (timestamp : string) : M string :=
  let* connection := connect_to_device device in
  let* hostname := lift (getitem device "hostname") in
  let* backup_file_path := get_backup_file_path hostname timestamp in
  let* hostname := lift (getitem device "hostname") in
  let* _ := create_backup connection backup_file_path hostname in
  let* _cdp_result := check_cdp_neighbours_count connection in
  let* (_hostname, _device_type, _image, _is_NPE) := check_version connection in
  let* _ := set_timezone connection in
  let* _ := ping_ntp connection NTP_SERVER in
  let* _ntp_result := check_ntp connection NTP_SERVER in
  let* hostname := lift (getitem device "hostname") in
  let* _ := disconnect_from_device connection hostname in
  ret (format_field _hostname +:+ "|" +:+ _device_type +:+ "|" +:+ _image +:+ "|"
       +:+ _is_NPE +:+ "|" +:+ _cdp_result +:+ "|" +:+ _ntp_result).

(** Lines 233-235: [for device in device_list: result.append(...)] *)
Fixpoint for_each_device (device_list : list device) (timestamp : string)
    (result : list string) : M (list string) :=
  match device_list with
  | [] => ret result
  | device :: rest =>
      let* line := process_target device timestamp in
      for_each_device rest timestamp (result ++ [line])
  end.

(** Lines 217-237 *)
Definition main : M unit :=
  let* timestamp := get_current_date_and_time in
  let* device_list := get_devices_from_file DEVICE_FILE_PATH in
  let processes : list string := [] in
  let* result := for_each_device device_list timestamp [] in
  print (Str.join newline result).

End Program.

(** ** A scripted network

    An implementation of [Netmiko] to run the program on: a connection is
    the address of its device, and the script says how each device answers.
    The answers do not change over time. *)

Record script := Script {
  on_connect : string → result unit;
  on_enable : string → result unit;
  on_command : string → string → result output;
  on_config : string → list string → result unit;
  on_disconnect : string → result unit
}.

Definition scripted : Netmiko :=
  Build_Netmiko script string
    (λ host _ _ _ _ s,
       (match on_connect s host with Ok _ => Ok host | Raise e => Raise e end, s))
    (λ c s, (on_enable s c, s))
    (λ c command _ s, (on_command s c command, s))
    (λ c commands s, (on_config s c commands, s))
    (λ c s, (on_disconnect s c, s)).

Definition show_version_r1 : gmap string field :=
  {[ "hostname" := FStr "r1";
     "hardware" := FList ["C2960"];
     "version" := FStr "15.2(4)e";
     "running_image" := FStr "c2960-lanbasek9-mz.bin" ]}.

(** Every device is reachable and answers as a healthy switch does. *)
Definition healthy_command (command : string) : result output :=
  if decide (command = "sh run") then Ok (Raw "hostname r1")
  else if decide (command = "sh cdp neighbors detail") then Ok (Structured [∅; ∅])
  else if decide (command = "sh ver") then Ok (Structured [show_version_r1])
  else if decide (command = "sh ntp asso") then Ok (Raw "*~10.10.0.1 .LOCL. 1 30 64 1")
  else Ok (Raw "!!!!!").

Definition healthy : script :=
  Script (λ _, Ok ()) (λ _, Ok ()) (λ _, healthy_command) (λ _ _, Ok ()) (λ _, Ok ()).

(** The device at [host] refuses the connection. *)
Definition unreachable (host : string) : script :=
  Script (λ h, if decide (h = host) then Raise (LibraryError "timed out") else Ok ())
         (λ _, Ok ()) (λ _, healthy_command) (λ _ _, Ok ()) (λ _, Ok ()).

(** Every device answers [command] with [answer], and is healthy otherwise. *)
Definition answering (command : string) (answer : result output) : script :=
  Script (λ _, Ok ()) (λ _, Ok ())
         (λ _ c, if decide (c = command) then answer else healthy_command c)
         (λ _ _, Ok ()) (λ _, Ok ()).

Definition inventory_row (ip hostname : string) : device :=
  {[ "ip" := ip; "username" := "admin"; "password" := "cisco";
     "device_type" := "cisco_ios"; "secret" := "class"; "hostname" := hostname ]}.

Definition r1 : device := inventory_row "10.0.0.1" "r1".
Definition r2 : device := inventory_row "10.0.0.2" "r2".
Definition r3 : device := inventory_row "10.0.0.3" "r3".

Definition noon : datetime := DateTime 2024 3 9 12 0 5.

(** A world with an empty working directory. *)
Definition fresh (s : script) : @world scripted := @World scripted s ∅ [] noon.

Definition inventory_text : string :=
  "ip,username,password,device_type,secret,hostname" +:+ newline
  +:+ "10.0.0.1,admin,cisco,cisco_ios,class,r1" +:+ newline
  +:+ "10.0.0.2,admin,cisco,cisco_ios,class,r2" +:+ newline
  +:+ "10.0.0.3,admin,cisco,cisco_ios,class,r3" +:+ newline.

(** A reader that knows one file: it finds the three devices in
    [inventory_text] and no device in any other text. *)
Definition csv_rows (text : string) : result (list device) :=
  if decide (text = inventory_text) then Ok [r1; r2; r3] else Ok [].

(** A world whose working directory holds the inventory and nothing else. *)
Definition office (s : script) : @world scripted :=
  @World scripted s {[ DEVICE_FILE_PATH := File inventory_text ]} [] noon.

(** A world whose file system has the directory /tmp. *)
Definition with_tmp (s : script) : @world scripted :=
  @World scripted s {[ "/tmp" := Dir ]} [] noon.

(** A world where a regular file sits where the directory of r1 should be. *)
Definition blocked (s : script) : @world scripted :=
  @World scripted s {[ "backups" := Dir; "backups/r1" := File "" ]} [] noon.

Definition show_version_npe : gmap string field :=
  {[ "hostname" := FStr "r9";
     "hardware" := FList ["C3750"; "C3750"];
     "version" := FStr "12.2(55)se";
     "running_image" := FStr "c3750-ipbasek9Npe-mz.bin" ]}.

Definition plain_repr (l : list string) : string := "[" +:+ Str.join ", " l +:+ "]".

(** ** Notions the statements use *)


(** [needle] occurs in [hay]. *)
Definition occurs_in (needle hay : string) : Prop :=
  ∃ before after, hay = before +:+ needle +:+ after.

(** A hostname that is one or more path components: not empty, no
    separator at either end. *)
Definition plain_hostname (hostname : string) : Prop :=
  hostname ≠ ""
  ∧ Str.startswith "/" hostname = false
  ∧ Str.endswith_char Os.sep hostname = false.

(** The hosts the program tried to connect to, in order. *)
Definition connects (t : list event) : list string :=
  omap (λ e, match e with EvConnect host => Some host | _ => None end) t.

(** The commands the program sent, in order. *)
Definition commands (t : list event) : list string :=
  omap (λ e, match e with EvCommand command _ => Some command | _ => None end) t.

(** How many times the program disconnected. *)
Definition disconnects (t : list event) : nat :=
  length (filter (λ e, e = EvDisconnect) t).

Section Notions.

Context `{nm : Netmiko}.
Variable repr_list : list string → string.

(** [m] adds to the trace, and never a disconnect. *)
Definition quiet {A} (m : M A) : Prop :=
  ∀ w, ∃ delta, trace (m w).2 = trace w ++ delta ∧ EvDisconnect ∉ delta.

(** [m] adds to the trace; when it returns, the disconnect and the message
    that follows it are the last things it did and there was no disconnect
    before; when it raises, there was no disconnect at all unless
    the disconnect is what raised. *)
Definition closes_session {A} (m : M A) : Prop :=
  ∀ w, ∃ delta,
    trace (m w).2 = trace w ++ delta
    ∧ match (m w).1 with
      | Ok _ => ∃ before text,
          delta = before ++ [EvDisconnect; EvPrint text] ∧ EvDisconnect ∉ before
      | Raise _ =>
          EvDisconnect ∉ delta
          ∨ ∃ before, delta = before ++ [EvDisconnect] ∧ EvDisconnect ∉ before
      end.

(** The pipelines of [devices] run one after the other from [w] to [w'],
    each returns, and [lines] are what they return, in that order. *)
Inductive run_fleet (timestamp : string)
    : list device → world → list string → world → Prop :=
  | run_fleet_nil w : run_fleet timestamp [] w [] w
  | run_fleet_cons device rest w line w1 lines w2 :
      process_target repr_list device timestamp w = (Ok line, w1) →
      run_fleet timestamp rest w1 lines w2 →
      run_fleet timestamp (device :: rest) w (line :: lines) w2.

End Notions.

(** ** Notions for the rest of the code *)

(** The keys [connect_to_device] reads from a row, in the order it reads them. *)
Definition CONNECT_KEYS : list string :=
  ["ip"; "username"; "password"; "device_type"; "secret"].

(** What the program did other than print. *)
Definition actions (t : list event) : list event :=
  omap (λ e, match e with EvPrint _ => None | _ => Some e end) t.

(** What a pipeline does to the device at [host] when nothing fails. *)
Definition pipeline_actions (host : string) : list event :=
  [ EvConnect host;
    EvEnable;
    EvCommand "sh run" false;
    EvCommand "sh cdp neighbors detail" true;
    EvCommand "sh ver" true;
    EvConfig ["clock timezone GMT+0 0"];
    EvCommand ("ping " +:+ NTP_SERVER +:+ newline) false;
    EvConfig ["ntp server " +:+ NTP_SERVER];
    EvSleep 4;
    EvCommand "sh ntp asso" false;
    EvDisconnect ].

Fixpoint all_chars (P : ascii → bool) (s : string) : bool :=
  match s with
  | EmptyString => true
  | String c s' => P c && all_chars P s'
  end.

Definition is_digit (c : ascii) : bool :=
  (48 <=? nat_of_ascii c) && (nat_of_ascii c <=? 57).

Definition is_lower (c : ascii) : bool :=
  (97 <=? nat_of_ascii c) && (nat_of_ascii c <=? 122).

Definition is_ascii (c : ascii) : bool := nat_of_ascii c <? 128.

(** A character a file name can hold: not the separator, not NUL. *)
Definition is_name_char (c : ascii) : bool :=
  negb (Os.is_sep c) && negb (bool_decide (c = "000"%char)).

(** A hostname that is one component of a path and names a directory of
    its own. *)
Definition hostname_component (hostname : string) : Prop :=
  hostname ≠ "" ∧ hostname ≠ "." ∧ hostname ≠ ".."
  ∧ all_chars is_name_char hostname = true.

(** A digit, an underscore or a dash. *)
Definition is_timestamp_char (c : ascii) : bool :=
  is_digit c || bool_decide (c = "_"%char) || bool_decide (c = "-"%char).

Section MoreNotions.

Context `{nm : Netmiko}.

(** [m] adds to the trace; what it does other than print is the start of
    [script], and all of [script] when it returns. *)
Definition follows {A} (m : M A) (script : list event) : Prop :=
  ∀ w, ∃ delta,
    trace (m w).2 = trace w ++ delta
    ∧ actions delta `prefix_of` script
    ∧ ∀ a, (m w).1 = Ok a → actions delta = script.

(** [m] leaves every entry of the file system as it is, except at the
    paths in [P]; it may add entries. *)
Definition keeps_entries {A} (P : string → Prop) (m : M A) : Prop :=
  ∀ w q n, ¬ P q → fs w !! q = Some n → fs (m w).2 !! q = Some n.

End MoreNotions.

(** * Facts about strings *)

Lemma str_app_cons c s t : String c s +:+ t = String c (s +:+ t).
Proof. reflexivity. Qed.

Lemma str_app_nil_r s : s +:+ "" = s.
Proof. induction s as [|c s IH]; [done|]. by rewrite str_app_cons, IH. Qed.

Lemma str_app_assoc s t u : (s +:+ t) +:+ u = s +:+ t +:+ u.
Proof. induction s as [|c s IH]; [done|]. by rewrite !str_app_cons, IH. Qed.

Lemma startswith_spec p s : Str.startswith p s = true ↔ ∃ t, s = p +:+ t.
Proof.
  revert s. induction p as [|a p IH]; intros s; simpl.
  - split; [intros _; by exists s | done].
  - destruct s as [|b s].
    + split; [done | intros [t Ht]; discriminate Ht].
    + destruct (decide (a = b)) as [->|Hne].
      * rewrite IH. split; intros [t Ht]; exists t.
        -- by rewrite str_app_cons, Ht.
        -- rewrite str_app_cons in Ht. by injection Ht.
      * split; [done|]. intros [t Ht]. rewrite str_app_cons in Ht.
        injection Ht as Hb _. congruence.
Qed.

Lemma contains_spec needle hay : Str.contains needle hay = true ↔ occurs_in needle hay.
Proof.
  unfold occurs_in. induction hay as [|c hay IH]; simpl.
  - rewrite orb_false_r, startswith_spec. split.
    + intros [t Ht]. by exists "", t.
    + intros [[|x before] [after Ht]]; [by exists after|discriminate Ht].
  - rewrite orb_true_iff, startswith_spec, IH. split.
    + intros [[t Ht]|(before & after & Ht)].
      * by exists "", t.
      * exists (String c before), after. by rewrite str_app_cons, Ht.
    + intros ([|x before] & after & Ht).
      * left. by exists after.
      * right. rewrite str_app_cons in Ht. injection Ht as _ Ht. by exists before, after.
Qed.






(** * The extractors *)

Create HintDb run discriminated.
#[global] Hint Unfold bind ret raise lift print sleep emit call os_call unbound_name : run.

(** Unfold the monad and take the steps whose outcome is known. *)
Ltac run := autounfold with run; simpl.
Ltac run_with H := run; rewrite H; simpl.

Section Extractors.

Context `{nm : Netmiko}.

Implicit Types (c : connection) (w : world) (o : output).

(** C6: when the CDP command yields a list of [n] neighbor records, empty or
    not, the summary is "CDP is ON, n peers"; when it yields anything else
    the summary is "CDP is OFF, 0 peers"; and no summary of the first kind
    equals the second. *)
Theorem check_cdp_neighbours_count_summary c w o n' :
  conn_send_command c "sh cdp neighbors detail" true (net w) = (Ok o, n') →
  (∀ records, o = Structured records →
     fst (check_cdp_neighbours_count c w)
     = Ok ("CDP is ON, " +:+ pretty (length records) +:+ " peers"))
  ∧ ((∀ records, o ≠ Structured records) →
     fst (check_cdp_neighbours_count c w) = Ok "CDP is OFF, 0 peers")
  ∧ ∀ n : nat, "CDP is ON, " +:+ pretty n +:+ " peers" ≠ "CDP is OFF, 0 peers".
Proof.
  intros H. unfold check_cdp_neighbours_count. run_with H. repeat split.
  - by intros records ->.
  - intros Hraw. destruct o as [| |records]; [done..|]. by destruct (Hraw records).
  - intros n Heq. discriminate Heq.
Qed.

(** C8: on raw output of the association command, the status is "Clock in
    Sync" exactly when the output contains "*~" followed at once by the
    server address, and "Not Sync" otherwise. *)
Theorem check_ntp_sync_marker c server w n1 text n2 :
  conn_send_config_set c ["ntp server " +:+ server] (net w) = (Ok (), n1) →
  conn_send_command c "sh ntp asso" false n1 = (Ok (Raw text), n2) →
  ∃ status,
    fst (check_ntp c server w) = Ok status
    ∧ (status = "Clock in Sync" ↔ occurs_in ("*~" +:+ server) text)
    ∧ (¬ occurs_in ("*~" +:+ server) text → status = "Not Sync").
Proof.
  intros H1 H2. unfold check_ntp. run_with H1. rewrite H2. simpl.
  destruct (Str.contains ("*~" +:+ server) text) eqn:E;
    eexists; (split; [done|]); rewrite <- contains_spec, E.
  - split; [done|]. by intros [].
  - split; [|done]. split; discriminate.
Qed.


(** C5 (the code departs from it): raw text that is not empty makes the
    version extractor raise [AttributeError]. *)
Theorem check_version_raw_text_raises c w text n' :
  text ≠ "" →
  conn_send_command c "sh ver" true (net w) = (Ok (Raw text), n') →
  fst (check_version c w) = Raise AttributeError.
Proof.
  intros Hne H. unfold check_version. run_with H. by destruct text.
Qed.

(** C10: on [None], on the empty text and on the empty list the version
    extractor returns four empty strings.  On a non-empty list only the
    first record is read: the outcome is that of any other run whose list
    starts with the same record, and the four fields are that record's
    hostname, the first element of its hardware, its version in upper case
    and the class of its running image (version and image being ASCII
    text); and whenever the extractor returns, the hostname and the
    hardware it returns are the first record's. *)
Theorem check_version_falsy_and_first c w o n' :
  conn_send_command c "sh ver" true (net w) = (Ok o, n') →
  (o = NoOutput ∨ o = Raw "" ∨ o = Structured [] →
     fst (check_version c w) = Ok (FStr "", "", "", ""))
  ∧ (∀ first rest, o = Structured (first :: rest) →
     (∀ c' w' rest' n'',
        conn_send_command c' "sh ver" true (net w')
        = (Ok (Structured (first :: rest')), n'') →
        fst (check_version c w) = fst (check_version c' w'))
     ∧ (∀ hardware version image,
          index0 (dict_get first "hardware" (FList [""])) = Ok hardware →
          dict_get first "version" (FStr "") = FStr version →
          dict_get first "running_image" (FStr "") = FStr image →
          all_chars is_ascii version = true →
          all_chars is_ascii image = true →
          fst (check_version c w)
          = Ok (dict_get first "hostname" (FStr ""), hardware, Str.upper version,
                if Str.contains "NPE" (Str.upper image) then "NPE" else "PE"))
     ∧ (∀ hostname hardware upper_version cls,
          fst (check_version c w) = Ok (hostname, hardware, upper_version, cls) →
          hostname = dict_get first "hostname" (FStr "")
          ∧ index0 (dict_get first "hardware" (FList [""])) = Ok hardware
          ∧ (∃ version, dict_get first "version" (FStr "") = FStr version)
          ∧ (∃ image, dict_get first "running_image" (FStr "") = FStr image)
          ∧ (cls = "NPE" ∨ cls = "PE"))).
Proof.
  intros H. split.
  - intros [-> | [-> | ->]]; unfold check_version; by run_with H.
  - intros first rest ->. split; [|split].
    + intros c' w' rest' n'' H'.
      unfold check_version. run_with H. rewrite H'. simpl.
      destruct (index0 _); [|done]. simpl.
      destruct (field_upper (dict_get first "version" _)); [|done]. simpl.
      by destruct (field_upper (dict_get first "running_image" _)).
    + intros hardware version image Hhw Hver Himg _ _.
      unfold check_version. run_with H.
      rewrite Hhw. simpl. rewrite Hver. simpl. by rewrite Himg.
    + intros hostname hardware upper_version cls.
      unfold check_version. run_with H.
      destruct (index0 _) as [hw|]; simpl; [|done].
      destruct (dict_get first "version" (FStr "")) as [v|]; simpl; [|done].
      destruct (dict_get first "running_image" (FStr "")) as [img|]; simpl; [|done].
      intros [= <- <- <- <-]. repeat split; eauto.
      destruct (Str.contains _ _); auto.
Qed.

End Extractors.

(** * Paths and files *)

Lemma startswith_sep_app h x : h ≠ "" → Str.startswith "/" (h +:+ x) = Str.startswith "/" h.
Proof. by destruct h. Qed.

Lemma endswith_char_app c x h :
  h ≠ "" → Str.endswith_char c (x +:+ h) = Str.endswith_char c h.
Proof.
  intros Hh. induction x as [|a x IH]; [done|].
  rewrite str_app_cons. simpl. rewrite IH.
  destruct (x +:+ h) eqn:E; [|done]. by destruct x, h.
Qed.

Lemma join_plain_hostname h name :
  plain_hostname h →
  Os.join BACKUP_DIR_PATH [h; h +:+ name] = "backups/" +:+ h +:+ "/" +:+ h +:+ name.
Proof.
  intros (Hne & Hstart & Hend). unfold Os.join, BACKUP_DIR_PATH. simpl.
  assert (Os.join_step "backups" h = "backups/" +:+ h) as ->.
  { unfold Os.join_step. by rewrite Hstart. }
  unfold Os.join_step. rewrite startswith_sep_app, Hstart by done.
  rewrite endswith_char_app, Hend by done. simpl.
  by rewrite !str_app_assoc.
Qed.

Lemma join_hostname_dir h :
  Str.startswith "/" h = false → Os.join BACKUP_DIR_PATH [h] = "backups/" +:+ h.
Proof. intros H. unfold Os.join. cbn [foldl]. unfold Os.join_step. by rewrite H. Qed.

Lemma lookup_mkdirs (fs : gmap string node) dirs d :
  foldr (λ d m, <[d := Dir]> m) fs dirs !! d
  = if bool_decide (d ∈ dirs) then Some Dir else fs !! d.
Proof.
  induction dirs as [|x dirs IH]; simpl; [done|].
  destruct (decide (x = d)) as [->|Hne].
  - rewrite lookup_insert_eq. rewrite bool_decide_eq_true_2; [done|]. by left.
  - rewrite lookup_insert_ne, IH by done.
    destruct (bool_decide (d ∈ dirs)) eqn:E.
    + apply bool_decide_eq_true in E. rewrite bool_decide_eq_true_2; [done|]. by right.
    + apply bool_decide_eq_false in E. rewrite bool_decide_eq_false_2; [done|].
      intros Hin. apply elem_of_cons in Hin as [->|Hin]; done.
Qed.

Lemma makedirs_creates (fs : gmap string node) name :
  fs !! name = None →
  existsb (Os.is_file fs) (Os.parents name) = false →
  ∃ fs', Os.makedirs name fs = Ok fs' ∧ fs' !! name = Some Dir.
Proof.
  intros Hnone Hparents. unfold Os.makedirs, Os.path_exists.
  rewrite bool_decide_eq_false_2 by (rewrite Hnone; by intros [? ?]).
  rewrite Hparents. eexists. split; [done|].
  rewrite lookup_mkdirs, bool_decide_eq_true_2; [done|].
  apply elem_of_app. right. by left.
Qed.

Lemma open_write_replaces (fs : gmap string node) p old text :
  fs !! p = Some (File old) →
  fs !! Os.dirname p = Some Dir →
  ∃ fs1, Os.open_w p fs = Ok fs1 ∧ Os.write p text fs1 !! p = Some (File text).
Proof.
  intros Hp Hd. unfold Os.open_w. rewrite Hp, Hd.
  destruct (Os.all_sep (Os.dirname p)); (eexists; split; [done|]);
    unfold Os.write; by rewrite lookup_insert_eq, lookup_insert_eq.
Qed.

(** * Traces *)

Section Traces.

Context `{nm : Netmiko}.

Lemma quiet_same {A} (m : M A) : (∀ w, trace (m w).2 = trace w) → quiet m.
Proof.
  intros H w. exists []. rewrite H, app_nil_r. split; [done|]. apply not_elem_of_nil.
Qed.

Lemma quiet_ret {A} (a : A) : quiet (ret a).
Proof. by apply quiet_same. Qed.

Lemma quiet_raise {A} e : quiet (@raise _ A e).
Proof. by apply quiet_same. Qed.

Lemma quiet_lift {A} (r : result A) : quiet (lift r).
Proof. by apply quiet_same. Qed.

Lemma quiet_os_call f : quiet (os_call f).
Proof. apply quiet_same. intros w. unfold os_call. by destruct (f (fs w)). Qed.

Lemma quiet_emit e : e ≠ EvDisconnect → quiet (emit e).
Proof.
  intros He w. exists [e]. split; [done|].
  intros Hin. apply list_elem_of_singleton in Hin. congruence.
Qed.

Lemma quiet_print text : quiet (print text).
Proof. by apply quiet_emit. Qed.

Lemma quiet_sleep n : quiet (sleep n).
Proof. by apply quiet_emit. Qed.

Lemma quiet_call {A} e (f : netstate → result A * netstate) :
  e ≠ EvDisconnect → quiet (call e f).
Proof.
  intros He w. exists [e]. unfold call. destruct (f (net w)). split; [done|].
  intros Hin. apply list_elem_of_singleton in Hin. congruence.
Qed.

Lemma quiet_bind {A B} (m : M A) (k : A → M B) :
  quiet m → (∀ a, quiet (k a)) → quiet (bind m k).
Proof.
  intros Hm Hk w. destruct (Hm w) as (d1 & H1 & N1). unfold bind.
  destruct (m w) as [[a|e] w1]; simpl in *.
  - destruct (Hk a w1) as (d2 & H2 & N2). exists (d1 ++ d2).
    rewrite H2, H1, app_assoc. split; [done|].
    rewrite elem_of_app. tauto.
  - by exists d1.
Qed.

Lemma quiet_try_except {A} (body : M A) cls handler :
  quiet body → quiet cls → quiet handler → quiet (try_except body cls handler).
Proof.
  intros Hb Hc Hh w. destruct (Hb w) as (d1 & H1 & N1). unfold try_except.
  destruct (body w) as [[a|e] w1]; simpl in *; [by exists d1|].
  destruct (Hc w1) as (d2 & H2 & N2).
  destruct (cls w1) as [[handles|e'] w2]; simpl in *.
  - destruct (handles e); simpl.
    + destruct (Hh w2) as (d3 & H3 & N3). exists (d1 ++ d2 ++ d3).
      rewrite H3, H2, H1, <- !app_assoc. split; [done|].
      rewrite !elem_of_app. tauto.
    + exists (d1 ++ d2). rewrite H2, H1, app_assoc. split; [done|].
      rewrite elem_of_app. tauto.
  - exists (d1 ++ d2). rewrite H2, H1, app_assoc. split; [done|].
    rewrite elem_of_app. tauto.
Qed.

Lemma closes_session_bind {A B} (m : M A) (k : A → M B) :
  quiet m → (∀ a, closes_session (k a)) → closes_session (bind m k).
Proof.
  intros Hm Hk w. destruct (Hm w) as (d1 & H1 & N1). unfold bind.
  destruct (m w) as [[a|e] w1]; simpl in *.
  - destruct (Hk a w1) as (d2 & H2 & Hd). exists (d1 ++ d2).
    rewrite H2, H1, app_assoc. split; [done|].
    destruct ((k a w1).1).
    + destruct Hd as (before & text & -> & N2). exists (d1 ++ before), text.
      rewrite app_assoc. split; [done|]. rewrite elem_of_app. tauto.
    + destruct Hd as [N2|(before & -> & N2)].
      * left. rewrite elem_of_app. tauto.
      * right. exists (d1 ++ before). rewrite app_assoc. split; [done|].
        rewrite elem_of_app. tauto.
  - exists d1. split; [done|]. by left.
Qed.

Lemma closes_session_disconnect {A} c hostname (a : A) :
  closes_session (let* _ := disconnect_from_device c hostname in ret a).
Proof.
  intros w. unfold disconnect_from_device. run.
  destruct (conn_disconnect c (net w)) as [[[]|e] n]; simpl.
  - eexists. split; [by rewrite <- app_assoc|].
    exists [], ("Connection to device " +:+ hostname +:+ " terminated").
    split; [done|]. apply not_elem_of_nil.
  - exists [EvDisconnect]. split; [done|]. right. exists [].
    split; [done|]. apply not_elem_of_nil.
Qed.

Ltac quiet_step :=
  first
    [ apply quiet_ret | apply quiet_raise | apply quiet_lift | apply quiet_print
    | apply quiet_sleep | apply quiet_os_call
    | apply quiet_call; discriminate
    | apply quiet_bind; [|intros ?] ].

Ltac quiet := repeat quiet_step.

Lemma quiet_connect_to_device device : quiet (connect_to_device device).
Proof. unfold connect_to_device. quiet. Qed.

Lemma quiet_get_backup_file_path hostname timestamp :
  quiet (get_backup_file_path hostname timestamp).
Proof.
  unfold get_backup_file_path. quiet.
  apply quiet_same. intros w.
  destruct (negb _); [|done]. unfold os_call. by destruct (Os.makedirs _ _).
Qed.

Lemma quiet_file_write path o : quiet (file_write path o).
Proof. destruct o; try apply quiet_raise. by apply quiet_same. Qed.

Lemma quiet_create_backup c path hostname : quiet (create_backup c path hostname).
Proof.
  unfold create_backup. apply quiet_try_except; [|apply quiet_raise|]; quiet.
  apply quiet_file_write.
Qed.

Lemma quiet_check_cdp_neighbours_count c : quiet (check_cdp_neighbours_count c).
Proof.
  unfold check_cdp_neighbours_count.
  apply quiet_bind; [quiet|]. intros [| |records]; quiet.
Qed.

Lemma quiet_check_version c : quiet (check_version c).
Proof.
  unfold check_version.
  apply quiet_bind; [quiet|]. intros [|[|]|[|]]; quiet.
Qed.

Lemma quiet_set_timezone c : quiet (set_timezone c).
Proof. unfold set_timezone. quiet. Qed.

Lemma quiet_ping_ntp c server : quiet (ping_ntp c server).
Proof.
  unfold ping_ntp.
  apply quiet_bind; [quiet|]. intros _.
  apply quiet_bind; [quiet|]. intros o.
  apply quiet_bind; [quiet|]. intros [|]; quiet.
Qed.

Lemma quiet_check_ntp c server : quiet (check_ntp c server).
Proof. unfold check_ntp. quiet. Qed.

End Traces.

(** * The pipeline of one device *)

Section Pipeline.

Context `{nm : Netmiko}.
Variable repr_list : list string → string.

Implicit Types (c : connection) (w : world) (device : device).

Lemma closes_session_process_target device timestamp :
  closes_session (process_target repr_list device timestamp).
Proof.
  unfold process_target.
  apply closes_session_bind; [apply quiet_connect_to_device|intros c].
  apply closes_session_bind; [apply quiet_lift|intros hostname].
  apply closes_session_bind; [apply quiet_get_backup_file_path|intros path].
  apply closes_session_bind; [apply quiet_lift|intros hostname'].
  apply closes_session_bind; [apply quiet_create_backup|intros _].
  apply closes_session_bind; [apply quiet_check_cdp_neighbours_count|intros cdp].
  apply closes_session_bind; [apply quiet_check_version|intros [[[h hw] v] cls]].
  apply closes_session_bind; [apply quiet_set_timezone|intros _].
  apply closes_session_bind; [apply quiet_ping_ntp|intros _].
  apply closes_session_bind; [apply quiet_check_ntp|intros ntp].
  apply closes_session_bind; [apply quiet_lift|intros hostname''].
  apply closes_session_disconnect.
Qed.

(** C3, as the code has it: a pipeline that returns its line has
    disconnected exactly once, as its last action on the session; a pipeline
    that raises has not disconnected at all, unless the disconnect is the
    call that raised. *)
Theorem process_target_disconnect device timestamp w :
  ∃ delta,
    trace (process_target repr_list device timestamp w).2 = trace w ++ delta
    ∧ (∀ line, (process_target repr_list device timestamp w).1 = Ok line →
         ∃ before text,
           delta = before ++ [EvDisconnect; EvPrint text] ∧ EvDisconnect ∉ before)
    ∧ (∀ e, (process_target repr_list device timestamp w).1 = Raise e →
         EvDisconnect ∉ delta
         ∨ ∃ before, delta = before ++ [EvDisconnect] ∧ EvDisconnect ∉ before).
Proof.
  destruct (closes_session_process_target device timestamp w) as (delta & Ht & H).
  exists delta. split; [done|].
  destruct ((process_target repr_list device timestamp w).1); split; try done.
Qed.

(** What [create_backup] can do: return [True], or raise [NameError]. *)
Lemma create_backup_outcomes c path hostname w :
  (create_backup c path hostname w).1 = Ok true
  ∨ (create_backup c path hostname w).1 = Raise (NameError "Error").
Proof.
  unfold create_backup, try_except. run.
  destruct (conn_enable c (net w)) as [[[]|e] n1]; simpl; [|by right].
  destruct (conn_send_command c "sh run" false n1) as [[o|e] n2]; simpl; [|by right].
  destruct (Os.open_w path (fs w)); simpl; [|by right].
  destruct o; simpl; auto.
Qed.

(** Once the backup step has returned, the inspection steps run on the
    session in their order, and the line the pipeline returns is made of
    their values alone: there is no field for the backup. *)
Theorem process_target_inspects device timestamp w
    c hostname path (backed_up reachable : bool) cdp h hw v cls ntp
    w1 w2 w3 w4 w5 w6 w7 w8 :
  connect_to_device device w = (Ok c, w1) →
  device !! "hostname" = Some hostname →
  get_backup_file_path hostname timestamp w1 = (Ok path, w2) →
  create_backup c path hostname w2 = (Ok backed_up, w3) →
  check_cdp_neighbours_count c w3 = (Ok cdp, w4) →
  check_version c w4 = (Ok (h, hw, v, cls), w5) →
  set_timezone c w5 = (Ok (), w6) →
  ping_ntp c NTP_SERVER w6 = (Ok reachable, w7) →
  check_ntp c NTP_SERVER w7 = (Ok ntp, w8) →
  process_target repr_list device timestamp w
  = (let* _ := disconnect_from_device c hostname in
     ret (format_field repr_list h +:+ "|" +:+ hw +:+ "|" +:+ v +:+ "|" +:+ cls
          +:+ "|" +:+ cdp +:+ "|" +:+ ntp)) w8.
Proof.
  intros H0 H1 H2 H3 H4 H5 H6 H7 H8.
  unfold process_target, bind at 1. rewrite H0.
  unfold bind at 1, lift, getitem. rewrite H1.
  unfold bind at 1. rewrite H2.
  unfold bind at 1. simpl.
  unfold bind at 1. rewrite H3.
  unfold bind at 1. rewrite H4.
  unfold bind at 1. rewrite H5.
  unfold bind at 1. rewrite H6.
  unfold bind at 1. rewrite H7.
  unfold bind at 1. rewrite H8.
  unfold bind at 1. simpl. done.
Qed.

(** * The fleet *)

Lemma run_fleet_length timestamp devices w lines w' :
  run_fleet repr_list timestamp devices w lines w' → length lines = length devices.
Proof. induction 1; simpl; congruence. Qed.

Lemma run_fleet_lookup timestamp devices w lines w' i device :
  run_fleet repr_list timestamp devices w lines w' →
  devices !! i = Some device →
  ∃ line wi wi',
    lines !! i = Some line
    ∧ process_target repr_list device timestamp wi = (Ok line, wi').
Proof.
  intros Hrun. revert i. induction Hrun as [|d rest w line w1 lines w2 Hd _ IH]; intros i Hi.
  - done.
  - destruct i as [|i]; simpl in *.
    + injection Hi as ->. by exists line, w, w1.
    + by apply IH.
Qed.

Lemma for_each_device_app timestamp before rest acc w lines w1 :
  run_fleet repr_list timestamp before w lines w1 →
  for_each_device repr_list (before ++ rest) timestamp acc w
  = for_each_device repr_list rest timestamp (acc ++ lines) w1.
Proof.
  intros Hrun. revert acc.
  induction Hrun as [|d ds w line w1 lines w2 Hd _ IH]; intros acc; simpl.
  - by rewrite app_nil_r.
  - unfold bind at 1. rewrite Hd, IH. by rewrite <- app_assoc.
Qed.

Lemma for_each_device_returns timestamp devices acc w out w' :
  for_each_device repr_list devices timestamp acc w = (Ok out, w') →
  ∃ lines, out = acc ++ lines ∧ run_fleet repr_list timestamp devices w lines w'.
Proof.
  revert acc w. induction devices as [|d ds IH]; intros acc w; simpl.
  - intros [= <- <-]. exists []. rewrite app_nil_r. split; [done|constructor].
  - unfold bind at 1.
    destruct (process_target repr_list d timestamp w) as [[line|e] w1] eqn:Hd; [|done].
    intros H. apply IH in H as (lines & -> & Hrun).
    exists (line :: lines). rewrite <- app_assoc. split; [done|].
    by econstructor.
Qed.

Variable DictReader : string → result (list device).

(** C2, as the code has it: when the connection to a device cannot be
    opened, its pipeline raises that error at once: the attempt is the only
    thing it has done, and it returns no line.  The loop over the fleet
    raises with it: the devices before it have been processed, the devices
    after it are not, and no list of lines is returned. *)
Theorem connect_failure_stops_the_run device timestamp w
    host username password device_type secret e n' :
  device !! "ip" = Some host →
  device !! "username" = Some username →
  device !! "password" = Some password →
  device !! "device_type" = Some device_type →
  device !! "secret" = Some secret →
  ConnectHandler host username password device_type secret (net w) = (Raise e, n') →
  let w' := set_net n' (add_event (EvConnect host) w) in
  process_target repr_list device timestamp w = (Raise e, w')
  ∧ ∀ before after lines w0,
      run_fleet repr_list timestamp before w0 lines w →
      for_each_device repr_list (before ++ device :: after) timestamp [] w0
      = (Raise e, w').
Proof.
  intros Hip Huser Hpw Htype Hsecret Hconnect w'.
  assert (process_target repr_list device timestamp w = (Raise e, w')) as Hdevice.
  { unfold process_target, connect_to_device. run. unfold getitem.
    rewrite Hip, Huser, Hpw, Htype, Hsecret. simpl. by rewrite Hconnect. }
  split; [done|].
  intros before after lines w0 Hrun.
  rewrite (for_each_device_app _ _ _ _ _ _ _ Hrun). simpl.
  unfold bind at 1. by rewrite Hdevice.
Qed.

(** C1, as the code has it: with the inventory read, if the pipeline of
    every device returns, the loop returns one line per device, the line at
    each position being the one the device at that position returned, and
    [main] prints these lines in that order; if the pipeline of some device
    raises, [main] raises with it and prints no report.  The loop returns
    lines in no other way. *)
Theorem main_one_line_per_device w text devices :
  fs w !! DEVICE_FILE_PATH = Some (File text) →
  DictReader text = Ok devices →
  let timestamp := strftime (clock w) in
  (∀ lines w',
     run_fleet repr_list timestamp devices w lines w' →
     length lines = length devices
     ∧ (∀ i device, devices !! i = Some device →
          ∃ line wi wi',
            lines !! i = Some line
            ∧ process_target repr_list device timestamp wi = (Ok line, wi'))
     ∧ for_each_device repr_list devices timestamp [] w = (Ok lines, w')
     ∧ main DictReader repr_list w
       = (Ok (), add_event (EvPrint (Str.join newline lines)) w'))
  ∧ (∀ lines w',
       for_each_device repr_list devices timestamp [] w = (Ok lines, w') →
       run_fleet repr_list timestamp devices w lines w')
  ∧ (∀ before device after lines w1 e w2,
       devices = before ++ device :: after →
       run_fleet repr_list timestamp before w lines w1 →
       process_target repr_list device timestamp w1 = (Raise e, w2) →
       main DictReader repr_list w = (Raise e, w2)).
Proof.
  intros Hfile Hcsv timestamp.
  assert (main DictReader repr_list w
               = match for_each_device repr_list devices timestamp [] w with
                 | (Ok lines, w') => print (Str.join newline lines) w'
                 | (Raise e, w') => (Raise e, w')
                 end) as Hmain.
  { unfold main, get_devices_from_file, get_current_date_and_time.
    unfold bind at 1. unfold bind at 1. rewrite Hfile, Hcsv. reflexivity. }
  split; [|split].
  - intros lines w' Hrun.
    assert (for_each_device repr_list devices timestamp [] w = (Ok lines, w')) as Hloop.
    { rewrite <- (app_nil_r devices).
      by rewrite (for_each_device_app _ _ [] [] _ _ _ Hrun). }
    split; [by eapply run_fleet_length|].
    split; [intros i device Hi; by eapply run_fleet_lookup|].
    split; [done|]. by rewrite Hmain, Hloop.
  - intros lines w' H. by apply for_each_device_returns in H as (? & -> & ?).
  - intros before device after lines w1 e w2 -> Hrun Hdevice.
    rewrite Hmain, (for_each_device_app _ _ _ _ _ _ _ Hrun). simpl.
    unfold bind at 1. by rewrite Hdevice.
Qed.

End Pipeline.

(** * The program on the scripted network *)

Example strftime_noon : strftime noon = "2024_03_09-12_00_05".
Proof. reflexivity. Qed.

Example run_r1 :
  (@process_target scripted plain_repr r1 "T" (fresh healthy)).1
  = Ok "r1|C2960|15.2(4)E|PE|CDP is ON, 2 peers|Clock in Sync".
Proof. vm_compute. reflexivity. Qed.

Example run_r1_session :
  let t := trace (@process_target scripted plain_repr r1 "T" (fresh healthy)).2 in
  connects t = ["10.0.0.1"]
  ∧ commands t = ["sh run"; "sh cdp neighbors detail"; "sh ver";
                  "ping 10.10.0.1" +:+ newline; "sh ntp asso"]
  ∧ disconnects t = 1.
Proof. vm_compute. done. Qed.

Example join_absolute : Os.join "backups" ["/r1"; "/r1-T.txt"] = "/r1-T.txt".
Proof. reflexivity. Qed.

Example join_empty : Os.join "backups" [""; "-T.txt"] = "backups/-T.txt".
Proof. reflexivity. Qed.

Example dirname_plain : Os.dirname "backups/r1/r1-T.txt" = "backups/r1".
Proof. reflexivity. Qed.

Example parents_deep : Os.parents "/a//b/c" = ["/a"; "/a//b"].
Proof. reflexivity. Qed.

(** The CDP summary on the healthy network: two neighbors. *)
Lemma check_cdp_neighbours_count_summary_witness :
  (@check_cdp_neighbours_count scripted "10.0.0.1" (fresh healthy)).1
  = Ok "CDP is ON, 2 peers".
Proof.
  refine (proj1 (@check_cdp_neighbours_count_summary scripted
                   "10.0.0.1" (fresh healthy) (Structured [∅; ∅]) healthy _)
            [∅; ∅] _);
    reflexivity.
Defined.

(** The sync status on the healthy network. *)
Lemma check_ntp_sync_marker_witness :
  ∃ status,
    (@check_ntp scripted "10.0.0.1" NTP_SERVER (fresh healthy)).1 = Ok status
    ∧ (status = "Clock in Sync"
       ↔ occurs_in ("*~" +:+ NTP_SERVER) "*~10.10.0.1 .LOCL. 1 30 64 1")
    ∧ (¬ occurs_in ("*~" +:+ NTP_SERVER) "*~10.10.0.1 .LOCL. 1 30 64 1"
       → status = "Not Sync").
Proof.
  apply (@check_ntp_sync_marker scripted "10.0.0.1" NTP_SERVER (fresh healthy)
           healthy "*~10.10.0.1 .LOCL. 1 30 64 1" healthy); reflexivity.
Defined.



(** The version extractor on raw text. *)
Lemma check_version_raw_text_raises_witness :
  (@check_version scripted "10.0.0.1"
     (fresh (answering "sh ver" (Ok (Raw "Cisco IOS Software"))))).1
  = Raise AttributeError.
Proof.
  apply (@check_version_raw_text_raises scripted "10.0.0.1"
           (fresh (answering "sh ver" (Ok (Raw "Cisco IOS Software"))))
           "Cisco IOS Software"
           (answering "sh ver" (Ok (Raw "Cisco IOS Software"))));
    [discriminate | reflexivity].
Defined.

(** The version extractor on a list of two records: the fields are those
    of the first. *)
Lemma check_version_falsy_and_first_witness :
  (@check_version scripted "10.0.0.9"
     (fresh (answering "sh ver" (Ok (Structured [show_version_npe; show_version_r1]))))).1
  = Ok (FStr "r9", "C3750", "12.2(55)SE", "NPE").
Proof.
  refine (proj1 (proj2
            (proj2 (@check_version_falsy_and_first scripted "10.0.0.9"
                      (fresh (answering "sh ver"
                                (Ok (Structured [show_version_npe; show_version_r1]))))
                      (Structured [show_version_npe; show_version_r1])
                      (answering "sh ver"
                         (Ok (Structured [show_version_npe; show_version_r1]))) _)
               show_version_npe [show_version_r1] _))
            "C3750" "12.2(55)se" "c3750-ipbasek9Npe-mz.bin" _ _ _ _ _);
    reflexivity.
Defined.

(** The pipeline of r1 on the healthy network. *)
Lemma process_target_inspects_witness :
  (@process_target scripted plain_repr r1 "T" (fresh healthy)).1
  = Ok "r1|C2960|15.2(4)E|PE|CDP is ON, 2 peers|Clock in Sync".
Proof.
  pose (w0 := fresh healthy).
  pose (path := "backups/r1/r1-T.txt").
  pose (w1 := (@connect_to_device scripted r1 w0).2).
  pose (w2 := (@get_backup_file_path scripted "r1" "T" w1).2).
  pose (w3 := (@create_backup scripted "10.0.0.1" path "r1" w2).2).
  pose (w4 := (@check_cdp_neighbours_count scripted "10.0.0.1" w3).2).
  pose (w5 := (@check_version scripted "10.0.0.1" w4).2).
  pose (w6 := (@set_timezone scripted "10.0.0.1" w5).2).
  pose (w7 := (@ping_ntp scripted "10.0.0.1" NTP_SERVER w6).2).
  pose (w8 := (@check_ntp scripted "10.0.0.1" NTP_SERVER w7).2).
  rewrite (@process_target_inspects scripted plain_repr r1 "T" (fresh healthy)
             "10.0.0.1" "r1" path true true "CDP is ON, 2 peers"
             (FStr "r1") "C2960" "15.2(4)E" "PE" "Clock in Sync"
             w1 w2 w3 w4 w5 w6 w7 w8);
    vm_compute; reflexivity.
Defined.

(** Two failing backups.  Whether the device refuses
    "sh run" or the file cannot be written, the pipeline raises [NameError]
    out of [create_backup]: it returns no line, and "sh run" is the last
    command the device has seen. *)
Lemma backup_failure_ends_the_pipeline :
  let command_refused :=
    @process_target scripted plain_repr r1 "T"
      (fresh (answering "sh run" (Raise (LibraryError "timed out")))) in
  let write_refused :=
    @process_target scripted plain_repr r1 "T" (blocked healthy) in
  command_refused.1 = Raise (NameError "Error")
  ∧ commands (trace command_refused.2) = ["sh run"]
  ∧ write_refused.1 = Raise (NameError "Error")
  ∧ commands (trace write_refused.2) = ["sh run"].
Proof. vm_compute. done. Qed.

(** C3 as stated fails when a step after the connection raises: here the
    device refuses the CDP command, and the pipeline leaves with the session
    open. *)
Lemma failed_step_leaves_session_open :
  let run :=
    @process_target scripted plain_repr r1 "T"
      (fresh (answering "sh cdp neighbors detail" (Raise (LibraryError "timed out")))) in
  run.1 = Raise (LibraryError "timed out")
  ∧ connects (trace run.2) = ["10.0.0.1"]
  ∧ disconnects (trace run.2) = 0.
Proof. vm_compute. done. Qed.

(** The pipeline of r2 when r2 cannot be reached, and the fleet with it. *)
Lemma connect_failure_stops_the_run_witness :
  let w := fresh (unreachable "10.0.0.2") in
  let w' := @set_net scripted (unreachable "10.0.0.2")
              (add_event (EvConnect "10.0.0.2") w) in
  @process_target scripted plain_repr r2 "T" w = (Raise (LibraryError "timed out"), w')
  ∧ @for_each_device scripted plain_repr ([] ++ r2 :: [r3]) "T" [] w
    = (Raise (LibraryError "timed out"), w').
Proof.
  intros w w'.
  destruct (@connect_failure_stops_the_run scripted plain_repr r2 "T" w
              "10.0.0.2" "admin" "cisco" "cisco_ios" "class"
              (LibraryError "timed out") (unreachable "10.0.0.2"))
    as [Hdevice Hfleet]; try reflexivity.
  split; [exact Hdevice|].
  apply (Hfleet [] [r3] [] w). constructor.
Defined.

(** C2 as stated fails: with r2 unreachable, its pipeline returns no line,
    the loop over r1, r2, r3 returns no lines, and r3 is never tried. *)
Lemma unreachable_device_no_result :
  let w := fresh (unreachable "10.0.0.2") in
  (@process_target scripted plain_repr r2 "T" w).1 = Raise (LibraryError "timed out")
  ∧ (@for_each_device scripted plain_repr [r1; r2; r3] "T" [] w).1
    = Raise (LibraryError "timed out")
  ∧ connects (trace (@for_each_device scripted plain_repr [r1; r2; r3] "T" [] w).2)
    = ["10.0.0.1"; "10.0.0.2"].
Proof. vm_compute. done. Qed.

(** The whole run on the healthy network. *)
Lemma main_one_line_per_device_witness :
  let line := "r1|C2960|15.2(4)E|PE|CDP is ON, 2 peers|Clock in Sync" in
  (@for_each_device scripted plain_repr [r1; r2; r3] (strftime noon) []
     (office healthy)).1 = Ok [line; line; line]
  ∧ (@main scripted csv_rows plain_repr (office healthy)).1 = Ok ().
Proof.
  intros line.
  pose (w' := (@for_each_device scripted plain_repr [r1; r2; r3] (strftime noon) []
                 (office healthy)).2).
  destruct (@main_one_line_per_device scripted plain_repr csv_rows (office healthy)
              inventory_text [r1; r2; r3] eq_refl eq_refl)
    as (Hreturns & Hrun & _).
  assert (@for_each_device scripted plain_repr [r1; r2; r3] (strftime noon) []
            (office healthy) = (Ok [line; line; line], w')) as Hloop
    by (vm_compute; reflexivity).
  destruct (Hreturns _ _ (Hrun _ _ Hloop)) as (_ & _ & Hlines & Hmain).
  split; [exact (f_equal fst Hlines) | exact (f_equal fst Hmain)].
Defined.

(** C1 as stated fails: with r2 unreachable, the run over three devices
    ends with the connection error and reports no line. *)
Lemma unreachable_device_no_report :
  let run := @main scripted csv_rows plain_repr (office (unreachable "10.0.0.2")) in
  run.1 = Raise (LibraryError "timed out")
  ∧ connects (trace run.2) = ["10.0.0.1"; "10.0.0.2"]
  ∧ last (trace run.2) = Some (EvConnect "10.0.0.2").
Proof. vm_compute. done. Qed.

(** * More on the extractors *)

Lemma upper_char_not_lower c : is_lower (Str.upper_char c) = false.
Proof.
  unfold Str.upper_char, is_lower.
  destruct (Nat.leb_spec 97 (nat_of_ascii c)) as [H1|H1];
    destruct (Nat.leb_spec (nat_of_ascii c) 122) as [H2|H2]; cbn [andb];
    rewrite ?nat_ascii_embedding by lia;
    apply andb_false_iff; rewrite !Nat.leb_gt; lia.
Qed.

Lemma upper_no_lower s : all_chars (λ c, negb (is_lower c)) (Str.upper s) = true.
Proof.
  induction s as [|c s IH]; [done|]. simpl.
  by rewrite upper_char_not_lower, IH.
Qed.

Section MoreExtractors.

Context `{nm : Netmiko}.

Implicit Types (c : connection) (w : world) (o : output).

(** X1: the reachability check: on raw output of the ping, the answer is
    [False] exactly when five dots in a row occur in it. *)
Theorem ping_ntp_marker c server w text n' :
  conn_send_command c ("ping " +:+ server +:+ newline) false (net w)
  = (Ok (Raw text), n') →
  ∃ reachable,
    (ping_ntp c server w).1 = Ok reachable
    ∧ (reachable = false ↔ occurs_in "....." text).
Proof.
  intros H. unfold ping_ntp. run_with H.
  destruct (Str.contains "....." text) eqn:E; simpl;
    eexists; (split; [done|]); rewrite <- contains_spec, E; done.
Qed.

(** X12: a record whose hardware list is empty makes the version extractor raise
    [IndexError], whatever its other fields hold. *)
Theorem check_version_empty_hardware_raises c w first rest n' :
  conn_send_command c "sh ver" true (net w) = (Ok (Structured (first :: rest)), n') →
  first !! "hardware" = Some (FList []) →
  (check_version c w).1 = Raise IndexError.
Proof.
  intros H Hhw. unfold check_version. run_with H.
  unfold dict_get. by rewrite Hhw.
Qed.

(** X13: a record that has none of the four columns gives three empty fields
    and the class "PE": nothing is raised. *)
Theorem check_version_missing_keys c w first rest n' :
  conn_send_command c "sh ver" true (net w) = (Ok (Structured (first :: rest)), n') →
  first !! "hostname" = None →
  first !! "hardware" = None →
  first !! "version" = None →
  first !! "running_image" = None →
  (check_version c w).1 = Ok (FStr "", "", "", "PE").
Proof.
  intros H H1 H2 H3 H4. unfold check_version. run_with H.
  unfold dict_get. by rewrite H1, H2, H3, H4.
Qed.

(** X14: whatever the device answers, a version the extractor returns has no
    lower-case letter, and the class it returns is empty, "NPE" or "PE". *)
Theorem check_version_upper_and_class c w hostname hardware version cls w' :
  check_version c w = (Ok (hostname, hardware, version, cls), w') →
  all_chars (λ ch, negb (is_lower ch)) version = true
  ∧ (cls = "" ∨ cls = "NPE" ∨ cls = "PE").
Proof.
  unfold check_version. run.
  destruct (conn_send_command c "sh ver" true (net w)) as [[o|e] n']; simpl; [|done].
  destruct o as [|[|]|[|first rest]]; simpl; try done;
    try (intros [= _ _ <- <- _]; by auto).
  destruct (index0 _); simpl; [|done].
  destruct (dict_get first "version" (FStr "")) as [v|]; simpl; [|done].
  destruct (field_upper (dict_get first "running_image" _)); simpl; [|done].
  intros [= _ _ <- <- _]. split; [apply upper_no_lower|].
  destruct (Str.contains _ _); auto.
Qed.

End MoreExtractors.

(** * More on paths *)

Lemma has_sep_app a b : Os.has_sep (a +:+ b) = Os.has_sep a || Os.has_sep b.
Proof.
  induction a as [|x a IH]; [done|].
  rewrite str_app_cons. simpl. by rewrite IH, orb_assoc.
Qed.

Lemma upto_last_sep_no_sep b : Os.has_sep b = false → Os.upto_last_sep b = "".
Proof. destruct b as [|x b]; [done|]. simpl. by intros ->. Qed.

Lemma upto_last_sep_app a b :
  Os.has_sep b = false → Os.upto_last_sep (a +:+ "/" +:+ b) = a +:+ "/".
Proof.
  intros Hb. induction a as [|x a IH].
  - change ("" +:+ "/" +:+ b) with (String "/" b). simpl.
    by rewrite upto_last_sep_no_sep.
  - change (String x a +:+ "/" +:+ b) with (String x (a +:+ "/" +:+ b)).
    change (String x a +:+ "/") with (String x (a +:+ "/")).
    cbn [Os.upto_last_sep]. rewrite IH.
    change (String x (a +:+ "/" +:+ b)) with (String x a +:+ "/" +:+ b).
    rewrite has_sep_app.
    replace (Os.has_sep ("/" +:+ b)) with true by done.
    by rewrite orb_true_r.
Qed.

Lemma rstrip_sep_snoc a : Os.rstrip_sep (a +:+ "/") = Os.rstrip_sep a.
Proof.
  induction a as [|x a IH]; [done|].
  rewrite str_app_cons. cbn [Os.rstrip_sep]. by rewrite IH.
Qed.

Lemma rstrip_sep_id a : Str.endswith_char Os.sep a = false → Os.rstrip_sep a = a.
Proof.
  induction a as [|x a IH]; [done|]. intros H. cbn [Os.rstrip_sep].
  destruct a as [|y a].
  - simpl in *. unfold Os.is_sep. by rewrite H.
  - rewrite IH by done. done.
Qed.

Lemma no_sep_endswith h : Os.has_sep h = false → Str.endswith_char Os.sep h = false.
Proof.
  induction h as [|x h IH]; [done|]. simpl. intros [Hx Hh]%orb_false_iff.
  destruct h; [exact Hx | by apply IH].
Qed.

Lemma no_sep_startswith h : Os.has_sep h = false → Str.startswith "/" h = false.
Proof.
  destruct h as [|x h]; [done|]. simpl. intros [Hx _]%orb_false_iff.
  unfold Os.is_sep, Os.sep in Hx. apply bool_decide_eq_false in Hx.
  destruct (decide ("/"%char = x)); [congruence|done].
Qed.

Lemma no_sep_plain h : h ≠ "" → Os.has_sep h = false → plain_hostname h.
Proof. intros ? ?. split; [done|]. auto using no_sep_startswith, no_sep_endswith. Qed.

Lemma parents_go_no_sep acc p : Os.has_sep p = false → Os.parents_go acc p = [].
Proof.
  revert acc. induction p as [|x p IH]; intros acc; [done|]. simpl.
  intros [-> Hp]%orb_false_iff. simpl. by apply IH.
Qed.

Lemma parents_backup_dir h : Os.has_sep h = false → Os.parents ("backups/" +:+ h) = ["backups"].
Proof.
  intros Hh. unfold Os.parents.
  change ("backups/" +:+ h)
    with (String "b" (String "a" (String "c" (String "k" (String "u"
           (String "p" (String "s" (String "/" h)))))))).
  cbn [Os.parents_go]. change (Os.is_sep "/") with true.
  rewrite (parents_go_no_sep _ h Hh). reflexivity.
Qed.

Lemma dirname_backup_path h name :
  h ≠ "" → Os.has_sep h = false → Os.has_sep name = false →
  Os.dirname ("backups/" +:+ h +:+ "/" +:+ name) = "backups/" +:+ h.
Proof.
  intros Hne Hh Hname. unfold Os.dirname.
  rewrite <- (str_app_assoc "backups/" h), upto_last_sep_app by done.
  rewrite rstrip_sep_snoc, rstrip_sep_id.
  - rewrite str_app_assoc. reflexivity.
  - rewrite endswith_char_app by done. by apply no_sep_endswith.
Qed.

Lemma open_write_fresh (fs : gmap string node) p text :
  fs !! p ≠ Some Dir →
  fs !! Os.dirname p = Some Dir →
  ∃ fs1, Os.open_w p fs = Ok fs1 ∧ Os.write p text fs1 !! p = Some (File text).
Proof.
  intros Hp Hd. unfold Os.open_w. rewrite Hd.
  destruct (fs !! p) as [[|old]|]; [done|..];
    destruct (Os.all_sep (Os.dirname p)); (eexists; split; [done|]);
    unfold Os.write; by rewrite lookup_insert_eq, lookup_insert_eq.
Qed.

Lemma makedirs_keeps (fs fs' : gmap string node) name q n :
  Os.makedirs name fs = Ok fs' → fs !! q = Some n → fs' !! q = Some n.
Proof.
  unfold Os.makedirs, Os.path_exists.
  destruct (bool_decide _) eqn:Hexists; [done|].
  destruct (existsb _ _) eqn:Hfiles; [done|]. intros [= <-] Hq.
  rewrite lookup_mkdirs.
  destruct (bool_decide (q ∈ Os.parents name ++ [name])) eqn:Hin; [|done].
  apply bool_decide_eq_true in Hin. apply bool_decide_eq_false in Hexists.
  apply elem_of_app in Hin as [Hin|Hin].
  - destruct n as [|content]; [done|].
    assert (existsb (Os.is_file fs) (Os.parents name) = true) as Habs; [|congruence].
    apply existsb_exists. exists q. split; [by apply list_elem_of_In|].
    unfold Os.is_file. by rewrite Hq.
  - apply list_elem_of_singleton in Hin as ->. destruct Hexists. by rewrite Hq.
Qed.

Lemma str_app_cons_ne h x t : h +:+ String x t ≠ h.
Proof.
  induction h as [|y h IH]; [done|].
  rewrite str_app_cons. intros [= H]. by apply IH.
Qed.

Lemma makedirs_elsewhere (fs fs' : gmap string node) name q :
  Os.makedirs name fs = Ok fs' → q ∉ Os.parents name ++ [name] → fs' !! q = fs !! q.
Proof.
  unfold Os.makedirs.
  destruct (Os.path_exists _ _); [done|]. destruct (existsb _ _); [done|].
  intros [= <-] Hq. by rewrite lookup_mkdirs, bool_decide_eq_false_2.
Qed.

Lemma makedirs_makes (fs fs' : gmap string node) name :
  Os.makedirs name fs = Ok fs' → fs' !! name = Some Dir.
Proof.
  unfold Os.makedirs.
  destruct (Os.path_exists _ _); [done|]. destruct (existsb _ _); [done|].
  intros [= <-]. rewrite lookup_mkdirs, bool_decide_eq_true_2; [done|].
  apply elem_of_app. right. by left.
Qed.

(** * More on the backup *)

Section Backup.

Context `{nm : Netmiko}.
Variable repr_list : list string → string.

Implicit Types (c : connection) (w : world) (device : device).

Lemma keeps_entries_same {A} P (m : M A) :
  (∀ w, fs (m w).2 = fs w) → keeps_entries P m.
Proof. intros H w q n _ Hq. by rewrite H. Qed.

Lemma keeps_entries_call {A} P e (f : netstate → result A * netstate) :
  keeps_entries P (call e f).
Proof. apply keeps_entries_same. intros w. unfold call. by destruct (f (net w)). Qed.

Lemma keeps_entries_bind {A B} P (m : M A) (k : A → M B) :
  keeps_entries P m → (∀ a, keeps_entries P (k a)) → keeps_entries P (bind m k).
Proof.
  intros Hm Hk w q n HP Hq. specialize (Hm w q n HP Hq). unfold bind.
  destruct (m w) as [[a|e] w1]; simpl in *; [|done]. by apply Hk.
Qed.

Lemma keeps_entries_bind_lift {A B} P (r : result A) (k : A → M B) :
  (∀ a, r = Ok a → keeps_entries P (k a)) → keeps_entries P (bind (lift r) k).
Proof.
  intros Hk w q n HP Hq. unfold bind, lift.
  destruct r as [a|e]; [|done]. by apply Hk.
Qed.

Lemma keeps_entries_get_backup_file_path hostname timestamp :
  keeps_entries (λ _, False) (get_backup_file_path hostname timestamp).
Proof.
  intros w q n _ Hq. unfold get_backup_file_path. run.
  destruct (negb _); [|done].
  destruct (Os.makedirs _ (fs w)) as [fs'|e] eqn:Hmk; simpl; [|done].
  by eapply makedirs_keeps.
Qed.

Lemma keeps_entries_create_backup c path hostname :
  keeps_entries (λ q, q = path) (create_backup c path hostname).
Proof.
  intros w q n Hne Hq. unfold create_backup, try_except. run.
  destruct (conn_enable c (net w)) as [[[]|e] n1]; simpl; [|done].
  destruct (conn_send_command c "sh run" false n1) as [[o|e] n2]; simpl; [|done].
  destruct (Os.open_w path (fs w)) as [fs1|e] eqn:Hopen; simpl; [|done].
  assert (fs1 !! q = Some n) as Hq1.
  { unfold Os.open_w in Hopen.
    assert (fs1 = <[path := File ""]> (fs w)) as ->.
    { destruct (fs w !! path) as [[|]|]; [done|..];
        destruct (Os.all_sep _); try congruence;
        destruct (fs w !! Os.dirname path) as [[|]|]; congruence. }
    by rewrite lookup_insert_ne. }
  destruct o as [|text|]; unfold file_write; run; [done| |done].
  unfold Os.write. destruct (fs1 !! path) as [[|old]|]; by rewrite lookup_insert_ne.
Qed.

(** X4: asking for the backup path leaves every file and directory that
    exists as it is: it only ever adds directories. *)
Theorem get_backup_file_path_keeps_entries hostname timestamp w q n :
  fs w !! q = Some n →
  fs (get_backup_file_path hostname timestamp w).2 !! q = Some n.
Proof.
  intros Hq. apply keeps_entries_get_backup_file_path; [by intros []|done].
Qed.

Lemma get_backup_file_path_existing hostname timestamp w :
  Os.path_exists (fs w) (Os.join BACKUP_DIR_PATH [hostname]) = true →
  ∃ p, get_backup_file_path hostname timestamp w
       = (Ok p, add_event (EvPrint ("Backup file path will be " +:+ p)) w).
Proof.
  intros H. unfold get_backup_file_path. autounfold with run. cbv beta.
  rewrite H. simpl. by eexists.
Qed.

Lemma get_backup_file_path_makes_dir hostname timestamp w p w1 :
  get_backup_file_path hostname timestamp w = (Ok p, w1) →
  Os.path_exists (fs w1) (Os.join BACKUP_DIR_PATH [hostname]) = true.
Proof.
  unfold get_backup_file_path. run.
  destruct (Os.path_exists (fs w) _) eqn:Hexists; simpl.
  - by intros [= _ <-].
  - unfold os_call.
    destruct (Os.makedirs _ (fs w)) as [fs'|e] eqn:Hmk; simpl; [|done].
    intros [= _ <-]. simpl. unfold Os.path_exists. apply bool_decide_eq_true_2.
    rewrite (makedirs_makes _ _ _ Hmk). by eexists.
Qed.

Lemma get_backup_file_path_returns hostname timestamp w p w1 :
  get_backup_file_path hostname timestamp w = (Ok p, w1) →
  p = Os.join BACKUP_DIR_PATH [hostname; hostname +:+ "-" +:+ timestamp +:+ ".txt"].
Proof.
  unfold get_backup_file_path. autounfold with run. cbv beta.
  destruct (negb _); [|by intros [= <- _]].
  destruct (Os.makedirs _ (fs w)); [by intros [= <- _]|done].
Qed.

(** X5: once the backup path has been returned for a hostname, asking again,
    for any timestamp, raises nothing and leaves the file system as it is. *)
Theorem get_backup_file_path_again hostname timestamp timestamp' w p w1 :
  get_backup_file_path hostname timestamp w = (Ok p, w1) →
  ∃ p' w2,
    get_backup_file_path hostname timestamp' w1 = (Ok p', w2) ∧ fs w2 = fs w1.
Proof.
  intros H. apply get_backup_file_path_makes_dir in H.
  destruct (get_backup_file_path_existing hostname timestamp' w1 H) as [p' ->].
  by eexists _, _.
Qed.

(** X6: the backup writes to the backup path and nowhere else: every other
    file and directory is as it was, whether the backup returns or raises. *)
Theorem create_backup_keeps_entries c path hostname w q n :
  q ≠ path →
  fs w !! q = Some n →
  fs (create_backup c path hostname w).2 !! q = Some n.
Proof. intros Hne Hq. by apply keeps_entries_create_backup. Qed.

End Backup.

Lemma name_chars_no_sep h : all_chars is_name_char h = true → Os.has_sep h = false.
Proof.
  induction h as [|x h IH]; [done|]. simpl.
  intros [[Hx _]%andb_true_iff Hh]%andb_true_iff.
  rewrite IH by done. by destruct (Os.is_sep x).
Qed.

Section BackupPath.

Context `{nm : Netmiko}.

Implicit Types (c : connection) (w : world).

(** C9, as the code has it: for a hostname that is one path component (not
    empty, no separator and no NUL in it, not "." and not ".."), the backup
    path is backups/H/H-T.txt.  The directory backups/H is left alone when
    something by that name exists; when nothing does it is created,
    together with backups if that is missing, unless backups is a regular
    file, in which case [os.makedirs] raises.  A backup written to a path
    that already holds a file leaves exactly the new text there. *)
Theorem backup_path_and_write hostname timestamp :
  hostname_component hostname →
  let dir := "backups/" +:+ hostname in
  let path :=
    "backups/" +:+ hostname +:+ "/" +:+ hostname +:+ "-" +:+ timestamp +:+ ".txt" in
  (∀ w p w', get_backup_file_path hostname timestamp w = (Ok p, w') → p = path)
  ∧ (∀ w, is_Some (fs w !! dir) →
       get_backup_file_path hostname timestamp w
       = (Ok path, add_event (EvPrint ("Backup file path will be " +:+ path)) w))
  ∧ (∀ w, fs w !! dir = None →
       Os.is_file (fs w) "backups" = false →
       ∃ w', get_backup_file_path hostname timestamp w = (Ok path, w')
             ∧ fs w' !! dir = Some Dir
             ∧ fs w' !! "backups" = Some Dir)
  ∧ (∀ w, fs w !! dir = None →
       Os.is_file (fs w) "backups" = true →
       get_backup_file_path hostname timestamp w = (Raise NotADirectoryError, w))
  ∧ (∀ c w old text n1 n2,
       fs w !! path = Some (File old) →
       fs w !! Os.dirname path = Some Dir →
       conn_enable c (net w) = (Ok (), n1) →
       conn_send_command c "sh run" false n1 = (Ok (Raw text), n2) →
       ∃ w', create_backup c path hostname w = (Ok true, w')
             ∧ fs w' !! path = Some (File text)).
Proof.
  intros (Hne & _ & _ & Hchars) dir path.
  pose proof (name_chars_no_sep _ Hchars) as Hnosep.
  pose proof (no_sep_plain _ Hne Hnosep) as Hplain.
  pose proof Hplain as (_ & Hstart & Hend).
  assert (Os.join BACKUP_DIR_PATH [hostname] = dir) as Hdir
    by by apply join_hostname_dir.
  assert (Os.join BACKUP_DIR_PATH [hostname; hostname +:+ "-" +:+ timestamp +:+ ".txt"]
          = path) as Hpath by by apply join_plain_hostname.
  assert (Os.parents dir = ["backups"]) as Hparents by by apply parents_backup_dir.
  split; [|split; [|split; [|split]]].
  - intros w p w' H. apply get_backup_file_path_returns in H. by rewrite H, Hpath.
  - intros w Hsome.
    assert (Os.path_exists (fs w) (Os.join BACKUP_DIR_PATH [hostname]) = true) as H.
    { rewrite Hdir. unfold Os.path_exists. by apply bool_decide_eq_true_2. }
    destruct (get_backup_file_path_existing hostname timestamp w H) as [p Hp].
    pose proof (get_backup_file_path_returns _ _ _ _ _ Hp) as Heq.
    rewrite Hpath in Heq. by subst p.
  - intros w Hnone Hfile.
    assert (Os.path_exists (fs w) dir = false) as Hexists.
    { unfold Os.path_exists. apply bool_decide_eq_false_2. rewrite Hnone. by intros [? ?]. }
    assert (∃ fs', Os.makedirs dir (fs w) = Ok fs') as [fs' Hmk].
    { unfold Os.makedirs. rewrite Hexists, Hparents. simpl. rewrite Hfile. by eexists. }
    exists (add_event (EvPrint ("Backup file path will be " +:+ path)) (set_fs fs' w)).
    split; [|split].
    + unfold get_backup_file_path. rewrite Hdir, Hpath.
      autounfold with run. cbv beta. rewrite Hexists. simpl. by rewrite Hmk.
    + simpl. by eapply makedirs_makes.
    + simpl. revert Hmk. unfold Os.makedirs. rewrite Hexists, Hparents. simpl.
      rewrite Hfile. intros [= <-]. by rewrite lookup_insert_eq.
  - intros w Hnone Hfile.
    assert (Os.path_exists (fs w) dir = false) as Hexists.
    { unfold Os.path_exists. apply bool_decide_eq_false_2. rewrite Hnone. by intros [? ?]. }
    assert (Os.makedirs dir (fs w) = Raise NotADirectoryError) as Hmk.
    { unfold Os.makedirs. rewrite Hexists, Hparents. simpl. by rewrite Hfile. }
    unfold get_backup_file_path. rewrite Hdir.
    autounfold with run. cbv beta. rewrite Hexists. simpl. by rewrite Hmk.
  - intros c w old text n1 n2 Hfile Hparent Henable Hsend.
    destruct (open_write_replaces _ _ _ text Hfile Hparent) as (fs1 & Hopen & Hwrite).
    unfold create_backup, try_except. run_with Henable. rewrite Hsend. simpl.
    rewrite Hopen. simpl. eexists. split; [done|]. done.
Qed.

End BackupPath.

Section BackupInPipeline.

Context `{nm : Netmiko}.
Variable repr_list : list string → string.

Implicit Types (c : connection) (w : world) (device : device).

(** X3: the two halves of the backup fit together.  For a hostname and a
    timestamp without separators, the directory [get_backup_file_path]
    makes is the one that holds the path it returns: if the device then
    hands over its configuration, the backup returns [True] and the file at
    that path holds exactly that text.  (Nothing may be in the way: no
    regular file where the directory goes, no directory where the file
    goes.) *)
Theorem backup_lands_in_its_directory hostname timestamp c w p w1 text n1 n2 :
  hostname ≠ "" →
  Os.has_sep hostname = false →
  Os.has_sep timestamp = false →
  Os.is_file (fs w) ("backups/" +:+ hostname) = false →
  fs w !! ("backups/" +:+ hostname +:+ "/" +:+ hostname +:+ "-" +:+ timestamp +:+ ".txt")
  ≠ Some Dir →
  get_backup_file_path hostname timestamp w = (Ok p, w1) →
  conn_enable c (net w1) = (Ok (), n1) →
  conn_send_command c "sh run" false n1 = (Ok (Raw text), n2) →
  ∃ w2, create_backup c p hostname w1 = (Ok true, w2)
        ∧ fs w2 !! p = Some (File text).
Proof.
  intros Hne Hh Ht Hnofile Hnodir Hpath Henable Hsend.
  set (dir := "backups/" +:+ hostname) in *.
  set (path := "backups/" +:+ hostname +:+ "/" +:+ hostname +:+ "-"
               +:+ timestamp +:+ ".txt") in *.
  pose proof (no_sep_plain _ Hne Hh) as Hplain.
  assert (Os.join BACKUP_DIR_PATH [hostname] = dir) as Hdir
    by (apply join_hostname_dir; by apply no_sep_startswith).
  assert (p = path) as ->.
  { pose proof (get_backup_file_path_returns _ _ _ _ _ Hpath) as ->.
    by apply join_plain_hostname. }
  (* the directory is there *)
  assert (fs w1 !! dir = Some Dir) as Hdir1.
  { pose proof (get_backup_file_path_makes_dir _ _ _ _ _ Hpath) as Hexists.
    rewrite Hdir in Hexists. apply bool_decide_eq_true in Hexists as [n Hn].
    destruct n as [|content]; [done|].
    revert Hpath. unfold get_backup_file_path. rewrite Hdir. run.
    destruct (Os.path_exists (fs w) dir) eqn:E; simpl.
    - intros [= _ <-]. simpl in Hn. unfold Os.is_file in Hnofile.
      by rewrite Hn in Hnofile.
    - unfold os_call. destruct (Os.makedirs dir (fs w)) as [fs'|e] eqn:Hmk; [|done].
      simpl. intros [= _ <-]. simpl in Hn.
      by rewrite (makedirs_makes _ _ _ Hmk) in Hn. }
  (* the path is not a directory *)
  assert (fs w1 !! path ≠ Some Dir) as Hpath1.
  { revert Hpath. unfold get_backup_file_path. rewrite Hdir. run.
    destruct (Os.path_exists (fs w) dir) eqn:E; simpl.
    - by intros [= _ <-].
    - unfold os_call. destruct (Os.makedirs dir (fs w)) as [fs'|e] eqn:Hmk; [|done].
      simpl. intros [= _ <-]. simpl.
      rewrite (makedirs_elsewhere _ _ _ path Hmk); [done|].
      unfold dir at 1. rewrite parents_backup_dir by done.
      intros Hin. apply elem_of_cons in Hin as [Hin|Hin].
      + discriminate Hin.
      + apply list_elem_of_singleton in Hin. unfold path, dir in Hin.
        apply (inj _) in Hin. by apply str_app_cons_ne in Hin. }
  assert (Os.dirname path = dir) as Hdirname.
  { apply dirname_backup_path; [done..|].
    rewrite !has_sep_app, Hh, Ht. reflexivity. }
  rewrite <- Hdirname in Hdir1.
  destruct (open_write_fresh _ _ text Hpath1 Hdir1) as (fs1 & Hopen & Hwrite).
  unfold create_backup, try_except. run_with Henable. rewrite Hsend. simpl.
  rewrite Hopen. simpl. eexists. split; [done|]. done.
Qed.

End BackupInPipeline.

(** * The order of a pipeline *)

Lemma actions_app t1 t2 : actions (t1 ++ t2) = actions t1 ++ actions t2.
Proof. apply omap_app. Qed.

Lemma connects_app t1 t2 : connects (t1 ++ t2) = connects t1 ++ connects t2.
Proof. apply omap_app. Qed.

Lemma connects_actions t : connects (actions t) = connects t.
Proof.
  induction t as [|e t IH]; [done|].
  destruct e; simpl; by rewrite ?IH.
Qed.

Lemma connects_prefix t1 t2 : t1 `prefix_of` t2 → connects t1 `prefix_of` connects t2.
Proof. intros [k ->]. rewrite connects_app. by apply prefix_app_r. Qed.

Section Order.

Context `{nm : Netmiko}.
Variable repr_list : list string → string.

Implicit Types (c : connection) (w : world) (device : device).

Lemma follows_same {A} (m : M A) : (∀ w, trace (m w).2 = trace w) → follows m [].
Proof. intros H w. exists []. by rewrite H, app_nil_r. Qed.

Lemma follows_ret {A} (a : A) : follows (ret a) [].
Proof. by apply follows_same. Qed.

Lemma follows_lift {A} (r : result A) : follows (lift r) [].
Proof. by apply follows_same. Qed.

Lemma follows_print text : follows (print text) [].
Proof. intros w. by exists [EvPrint text]. Qed.

Lemma follows_call {A} e (f : netstate → result A * netstate) :
  actions [e] = [e] → follows (call e f) [e].
Proof.
  intros He w. exists [e]. unfold call. destruct (f (net w)) as [r n].
  split; [done|]. by rewrite He.
Qed.

Lemma follows_bind {A B} (m : M A) (k : A → M B) s1 s2 :
  follows m s1 → (∀ a, follows (k a) s2) → follows (bind m k) (s1 ++ s2).
Proof.
  intros Hm Hk w. destruct (Hm w) as (d1 & H1 & P1 & E1). unfold bind.
  destruct (m w) as [[a|e] w1]; simpl in *.
  - destruct (Hk a w1) as (d2 & H2 & P2 & E2). exists (d1 ++ d2).
    rewrite H2, H1, app_assoc, actions_app, (E1 a) by done.
    split; [done|]. split; [by apply prefix_app|].
    intros b Hb. by rewrite (E2 b).
  - exists d1. split; [done|]. split; [by apply prefix_app_r|done].
Qed.

Lemma follows_bind_lift {A B} (r : result A) (k : A → M B) s :
  (∀ a, r = Ok a → follows (k a) s) → follows (bind (lift r) k) s.
Proof.
  intros Hk w. unfold bind, lift. destruct r as [a|e]; [by apply Hk|].
  exists []. rewrite app_nil_r. split; [done|]. split; [apply prefix_nil|done].
Qed.

Lemma follows_connect_to_device device host :
  device !! "ip" = Some host → follows (connect_to_device device) [EvConnect host].
Proof.
  intros Hip. unfold connect_to_device, getitem. rewrite Hip.
  apply follows_bind_lift. intros ? [= <-].
  apply follows_bind_lift. intros username _.
  apply follows_bind_lift. intros password _.
  apply follows_bind_lift. intros device_type _.
  apply follows_bind_lift. intros secret _.
  apply (follows_bind _ _ [EvConnect host] []); [by apply follows_call|]. intros c.
  apply follows_bind_lift. intros ip _.
  apply (follows_bind _ _ [] []); [apply follows_print|]. intros _.
  apply follows_ret.
Qed.

Lemma follows_get_backup_file_path hostname timestamp :
  follows (get_backup_file_path hostname timestamp) [].
Proof.
  unfold get_backup_file_path.
  apply (follows_bind _ _ [] []).
  - apply follows_same. intros w.
    destruct (negb _); [|done]. unfold os_call. by destruct (Os.makedirs _ _).
  - intros _. apply (follows_bind _ _ [] []); [apply follows_print|]. intros _.
    apply follows_ret.
Qed.

Lemma follows_create_backup c path hostname :
  follows (create_backup c path hostname) [EvEnable; EvCommand "sh run" false].
Proof.
  intros w. unfold create_backup, try_except. run.
  destruct (conn_enable c (net w)) as [[[]|e] n1]; simpl.
  2:{ exists [EvEnable]. split; [done|]. split; [by exists [EvCommand "sh run" false]|done]. }
  destruct (conn_send_command c "sh run" false n1) as [[o|e] n2]; simpl.
  2:{ exists [EvEnable; EvCommand "sh run" false]. by rewrite <- app_assoc. }
  destruct (Os.open_w path (fs w)); simpl.
  2:{ exists [EvEnable; EvCommand "sh run" false]. by rewrite <- app_assoc. }
  destruct o; unfold file_write; run.
  - exists [EvEnable; EvCommand "sh run" false]. by rewrite <- app_assoc.
  - exists [EvEnable; EvCommand "sh run" false;
            EvPrint ("Backup of " +:+ hostname +:+ " is complete!")].
    by rewrite <- !app_assoc.
  - exists [EvEnable; EvCommand "sh run" false]. by rewrite <- app_assoc.
Qed.

Lemma follows_check_cdp_neighbours_count c :
  follows (check_cdp_neighbours_count c) [EvCommand "sh cdp neighbors detail" true].
Proof.
  unfold check_cdp_neighbours_count.
  apply (follows_bind _ _ [_] []); [by apply follows_call|].
  intros [| |records]; apply follows_ret.
Qed.

Lemma follows_check_version c : follows (check_version c) [EvCommand "sh ver" true].
Proof.
  unfold check_version.
  apply (follows_bind _ _ [_] []); [by apply follows_call|].
  intros [|[|]|[|first rest]]; try apply follows_ret; [by apply follows_same|].
  do 3 (apply follows_bind_lift; intros ? _). apply follows_ret.
Qed.

Lemma follows_set_timezone c :
  follows (set_timezone c) [EvConfig ["clock timezone GMT+0 0"]].
Proof.
  unfold set_timezone.
  apply (follows_bind _ _ [] [_]); [apply follows_print|]. intros _.
  by apply follows_call.
Qed.

Lemma follows_ping_ntp c server :
  follows (ping_ntp c server) [EvCommand ("ping " +:+ server +:+ newline) false].
Proof.
  unfold ping_ntp.
  apply (follows_bind _ _ [] [_]); [apply follows_print|]. intros _.
  apply (follows_bind _ _ [_] []); [by apply follows_call|]. intros o.
  apply follows_bind_lift. intros [|] _;
    (apply (follows_bind _ _ [] []); [apply follows_print|]; intros _; apply follows_ret).
Qed.

Lemma follows_check_ntp c server :
  follows (check_ntp c server)
    [EvConfig ["ntp server " +:+ server]; EvSleep 4; EvCommand "sh ntp asso" false].
Proof.
  unfold check_ntp.
  apply (follows_bind _ _ [] [_; _; _]); [apply follows_print|]. intros _.
  apply (follows_bind _ _ [_] [_; _]); [by apply follows_call|]. intros _.
  apply (follows_bind _ _ [EvSleep 4] [_]); [intros w; by exists [EvSleep 4]|]. intros _.
  apply (follows_bind _ _ [_] []); [by apply follows_call|]. intros o.
  apply follows_bind_lift. intros synced _. apply follows_ret.
Qed.

Lemma follows_disconnect_from_device c hostname :
  follows (disconnect_from_device c hostname) [EvDisconnect].
Proof.
  unfold disconnect_from_device.
  apply (follows_bind _ _ [_] []); [by apply follows_call|]. intros _.
  apply follows_print.
Qed.

Lemma follows_process_target device timestamp host :
  device !! "ip" = Some host →
  follows (process_target repr_list device timestamp) (pipeline_actions host).
Proof.
  intros Hip. unfold process_target, pipeline_actions.
  apply (follows_bind _ _ [_] (_ :: _)); [by apply follows_connect_to_device|]. intros c.
  apply follows_bind_lift. intros hostname _.
  apply (follows_bind _ _ [] (_ :: _)); [apply follows_get_backup_file_path|].
  intros path.
  apply follows_bind_lift. intros hostname' _.
  apply (follows_bind _ _ [_; _] (_ :: _)); [apply follows_create_backup|]. intros _.
  apply (follows_bind _ _ [_] (_ :: _)); [apply follows_check_cdp_neighbours_count|].
  intros cdp.
  apply (follows_bind _ _ [_] (_ :: _)); [apply follows_check_version|].
  intros [[[h hw] v] cls].
  apply (follows_bind _ _ [_] (_ :: _)); [apply follows_set_timezone|]. intros _.
  apply (follows_bind _ _ [_] (_ :: _)); [apply follows_ping_ntp|]. intros _.
  apply (follows_bind _ _ [_; _; _] (_ :: _)); [apply follows_check_ntp|]. intros ntp.
  apply follows_bind_lift. intros hostname'' _.
  apply (follows_bind _ _ [_] []); [apply follows_disconnect_from_device|]. intros _.
  apply follows_ret.
Qed.

(** X8: whatever the devices answer, a pipeline acts in one fixed order:
    connect, enable, "sh run", the CDP command, "sh ver", the timezone line,
    the ping, the NTP server line, the four-second wait, the association
    command, disconnect.  What it has done when it stops is a start of that
    list, and the whole list when it returns its line. *)
Theorem process_target_order device timestamp w host :
  device !! "ip" = Some host →
  ∃ delta,
    trace (process_target repr_list device timestamp w).2 = trace w ++ delta
    ∧ actions delta `prefix_of` pipeline_actions host
    ∧ ∀ line, (process_target repr_list device timestamp w).1 = Ok line →
        actions delta = pipeline_actions host.
Proof. intros Hip. by apply follows_process_target. Qed.

End Order.

(** * Missing keys, and what a run touches *)

Section Edges.

Context `{nm : Netmiko}.
Variable DictReader : string → result (list device).
Variable repr_list : list string → string.

Implicit Types (c : connection) (w : world) (device : device).

(** X10: a row that lacks one of the keys the connection needs makes
    [connect_to_device] raise [KeyError] for the first key that is missing,
    in the order ip, username, password, device_type, secret, before
    anything is sent: the world is as it was. *)
Theorem connect_to_device_missing_key device w key :
  key ∈ CONNECT_KEYS →
  device !! key = None →
  ∃ before missing after,
    CONNECT_KEYS = before ++ missing :: after
    ∧ (∀ k, k ∈ before → is_Some (device !! k))
    ∧ device !! missing = None
    ∧ connect_to_device device w = (Raise (KeyError missing), w).
Proof.
  intros Hkey Hnone.
  assert (∀ l k, (∀ x, x ∈ l ++ [k] → is_Some (device !! x)) ↔
                 (∀ x, x ∈ l → is_Some (device !! x)) ∧ is_Some (device !! k)) as Hsnoc.
  { intros l k. split.
    - intros H. split; [intros x Hx|]; apply H, elem_of_app; [by left|right; by left].
    - intros [Hl Hk] x [Hx|Hx%list_elem_of_singleton]%elem_of_app; [by apply Hl|by subst]. }
  unfold connect_to_device, getitem. run.
  destruct (device !! "ip") as [ip|] eqn:H1; simpl.
  2:{ exists [], "ip", ["username"; "password"; "device_type"; "secret"].
      repeat split; [|done..]. by intros k Hk%not_elem_of_nil. }
  destruct (device !! "username") as [username|] eqn:H2; simpl.
  2:{ exists ["ip"], "username", ["password"; "device_type"; "secret"].
      repeat split; [|done..]. intros k Hk%list_elem_of_singleton. by subst. }
  destruct (device !! "password") as [password|] eqn:H3; simpl.
  2:{ exists ["ip"; "username"], "password", ["device_type"; "secret"].
      repeat split; [|done..].
      apply (Hsnoc ["ip"] "username"). split; [|done].
      intros k Hk%list_elem_of_singleton. by subst. }
  destruct (device !! "device_type") as [device_type|] eqn:H4; simpl.
  2:{ exists ["ip"; "username"; "password"], "device_type", ["secret"].
      repeat split; [|done..].
      apply (Hsnoc ["ip"; "username"] "password"). split; [|done].
      apply (Hsnoc ["ip"] "username"). split; [|done].
      intros k Hk%list_elem_of_singleton. by subst. }
  destruct (device !! "secret") as [secret|] eqn:H5; simpl.
  2:{ exists ["ip"; "username"; "password"; "device_type"], "secret", [].
      repeat split; [|done..].
      apply (Hsnoc ["ip"; "username"; "password"] "device_type"). split; [|done].
      apply (Hsnoc ["ip"; "username"] "password"). split; [|done].
      apply (Hsnoc ["ip"] "username"). split; [|done].
      intros k Hk%list_elem_of_singleton. by subst. }
  exfalso. unfold CONNECT_KEYS in Hkey.
  repeat (apply elem_of_cons in Hkey as [->|Hkey]; [congruence|]).
  by apply not_elem_of_nil in Hkey.
Qed.

(** X11: the hostname is read only once the session is open.  A row with the
    five connection keys and no hostname makes the pipeline connect, then
    raise [KeyError]: nothing is backed up, nothing is inspected, and the
    session is not closed. *)
Theorem process_target_missing_hostname device timestamp w
    host username password device_type secret c n' :
  device !! "ip" = Some host →
  device !! "username" = Some username →
  device !! "password" = Some password →
  device !! "device_type" = Some device_type →
  device !! "secret" = Some secret →
  device !! "hostname" = None →
  ConnectHandler host username password device_type secret (net w) = (Ok c, n') →
  process_target repr_list device timestamp w
  = (Raise (KeyError "hostname"),
     add_event (EvPrint ("Opened connection to " +:+ host))
       (set_net n' (add_event (EvConnect host) w))).
Proof.
  intros Hip Huser Hpw Htype Hsecret Hhost Hconnect.
  unfold process_target, connect_to_device. run. unfold getitem.
  rewrite Hip, Huser, Hpw, Htype, Hsecret. simpl. rewrite Hconnect. simpl.
  by rewrite Hhost.
Qed.

(** X2: the backup either returns [True] or raises [NameError]: it never
    returns [False], it never prints that the backup failed, and an error
    of the device is never what comes out of it. *)
Theorem create_backup_never_false c path hostname w :
  ((create_backup c path hostname w).1 = Ok true
   ∨ (create_backup c path hostname w).1 = Raise (NameError "Error"))
  ∧ ∃ delta,
      trace (create_backup c path hostname w).2 = trace w ++ delta
      ∧ EvPrint ("Error! Unable to backup device " +:+ hostname) ∉ delta.
Proof.
  unfold create_backup, try_except. run.
  destruct (conn_enable c (net w)) as [[[]|e] n1]; simpl.
  2:{ split; [by right|]. exists [EvEnable]. split; [done|].
      by intros [=]%list_elem_of_singleton. }
  destruct (conn_send_command c "sh run" false n1) as [[o|e] n2]; simpl.
  2:{ split; [by right|]. exists [EvEnable; EvCommand "sh run" false].
      rewrite <- app_assoc. split; [done|].
      intros [[=]|[=]%list_elem_of_singleton]%elem_of_cons. }
  assert (EvPrint ("Error! Unable to backup device " +:+ hostname)
          ∉ [EvEnable; EvCommand "sh run" false]) as Hquiet
    by (intros [[=]|[=]%list_elem_of_singleton]%elem_of_cons).
  destruct (Os.open_w path (fs w)); simpl.
  2:{ split; [by right|]. exists [EvEnable; EvCommand "sh run" false].
      by rewrite <- app_assoc. }
  destruct o; unfold file_write; run.
  - split; [by right|]. exists [EvEnable; EvCommand "sh run" false].
    by rewrite <- app_assoc.
  - split; [by left|].
    exists [EvEnable; EvCommand "sh run" false;
            EvPrint ("Backup of " +:+ hostname +:+ " is complete!")].
    rewrite <- !app_assoc. split; [done|].
    intros [[=]|[[=]|[=]%list_elem_of_singleton]%elem_of_cons]%elem_of_cons.
  - split; [by right|]. exists [EvEnable; EvCommand "sh run" false].
    by rewrite <- app_assoc.
Qed.

End Edges.

(** * The timestamp *)

Lemma all_chars_app P a b : all_chars P (a +:+ b) = all_chars P a && all_chars P b.
Proof.
  induction a as [|x a IH]; [done|].
  rewrite str_app_cons. simpl. by rewrite IH, andb_assoc.
Qed.

Lemma pretty_N_char_digit x : is_digit (pretty_N_char x) = true.
Proof. unfold pretty_N_char. by repeat case_match. Qed.

Lemma pretty_N_go_digits x s :
  all_chars is_digit s = true → all_chars is_digit (pretty_N_go x s) = true.
Proof.
  revert s. induction (N.lt_wf_0 x) as [x _ IH]; intros s Hs.
  destruct (decide (x = 0)%N) as [->|Hx]; [by rewrite pretty_N_go_0|].
  rewrite pretty_N_go_step by lia. apply IH.
  - apply N.div_lt; lia.
  - simpl. by rewrite pretty_N_char_digit.
Qed.

Lemma pretty_nat_digits (n : nat) : all_chars is_digit (pretty n) = true.
Proof.
  unfold pretty, pretty_nat, pretty, pretty_N.
  destruct (decide _); [done|]. by apply pretty_N_go_digits.
Qed.

Lemma all_chars_weaken (P Q : ascii → bool) s :
  (∀ ch, P ch = true → Q ch = true) → all_chars P s = true → all_chars Q s = true.
Proof.
  intros HPQ. induction s as [|x s IH]; [done|]. simpl.
  intros [Hx Hs]%andb_true_iff. by rewrite (HPQ x Hx), IH.
Qed.

Lemma pad2_digits n : all_chars is_digit (pad2 n) = true.
Proof.
  unfold pad2. destruct (n <? 10); [|apply pretty_nat_digits].
  rewrite all_chars_app, pretty_nat_digits. reflexivity.
Qed.

Lemma timestamp_chars_no_sep s :
  all_chars is_timestamp_char s = true → Os.has_sep s = false.
Proof.
  induction s as [|x s IH]; [done|]. simpl.
  intros [Hx Hs]%andb_true_iff. rewrite IH by done.
  rewrite orb_false_r. unfold Os.is_sep, Os.sep. apply bool_decide_eq_false_2.
  intros ->. discriminate Hx.
Qed.

Section Timestamp.

Context `{nm : Netmiko}.

(** X15: whatever the clock says, the timestamp of a run is made of digits,
    underscores and dashes only; it holds no path separator, so the name
    of a backup file adds no directory level of its own. *)
Theorem get_current_date_and_time_chars (w : world) :
  ∃ timestamp,
    get_current_date_and_time w = (Ok timestamp, w)
    ∧ all_chars is_timestamp_char timestamp = true
    ∧ Os.has_sep timestamp = false.
Proof.
  exists (strftime (clock w)). split; [done|].
  assert (all_chars is_timestamp_char (strftime (clock w)) = true) as H.
  { assert (∀ n : nat, all_chars is_timestamp_char (pretty n) = true) as Hpretty.
    { intros n. apply (all_chars_weaken is_digit); [|apply pretty_nat_digits].
      intros ch Hch. unfold is_timestamp_char. by rewrite Hch. }
    assert (∀ n, all_chars is_timestamp_char (pad2 n) = true) as Hpad.
    { intros n. apply (all_chars_weaken is_digit); [|apply pad2_digits].
      intros ch Hch. unfold is_timestamp_char. by rewrite Hch. }
    unfold strftime. rewrite !all_chars_app, Hpretty, !Hpad. reflexivity. }
  split; [done|]. by apply timestamp_chars_no_sep.
Qed.

End Timestamp.

(** * More on the fleet *)

Section Fleet.

Context `{nm : Netmiko}.
Variable DictReader : string → result (list device).
Variable repr_list : list string → string.

Implicit Types (c : connection) (w : world) (device : device).

Lemma process_target_connects device timestamp w :
  ∃ delta,
    trace (process_target repr_list device timestamp w).2 = trace w ++ delta
    ∧ connects delta `prefix_of` option_list (device !! "ip")
    ∧ ∀ line, (process_target repr_list device timestamp w).1 = Ok line →
        ∃ host, device !! "ip" = Some host ∧ connects delta = [host].
Proof.
  destruct (device !! "ip") as [host|] eqn:Hip.
  - destruct (follows_process_target repr_list device timestamp host Hip w)
      as (delta & Ht & Hprefix & Hall).
    exists delta. split; [done|]. split.
    + rewrite <- connects_actions. by apply connects_prefix in Hprefix.
    + intros line Hline. exists host. split; [done|].
      by rewrite <- connects_actions, (Hall line Hline).
  - exists []. unfold process_target, connect_to_device, getitem. rewrite Hip.
    simpl. by rewrite app_nil_r.
Qed.

Lemma for_each_device_cons device rest timestamp result w :
  for_each_device repr_list (device :: rest) timestamp result w
  = match process_target repr_list device timestamp w with
    | (Ok line, w1) => for_each_device repr_list rest timestamp (result ++ [line]) w1
    | (Raise e, w1) => (Raise e, w1)
    end.
Proof. reflexivity. Qed.

(** X9: no device is tried twice and none out of turn: the hosts the loop
    connects to, in order, are a start of the ip column of the inventory,
    and the whole column, one host per device, when the loop returns. *)
Theorem for_each_device_connects devices timestamp result w :
  ∃ delta,
    trace (for_each_device repr_list devices timestamp result w).2 = trace w ++ delta
    ∧ connects delta `prefix_of` omap (λ device, device !! "ip") devices
    ∧ ∀ lines, (for_each_device repr_list devices timestamp result w).1 = Ok lines →
        connects delta = omap (λ device, device !! "ip") devices
        ∧ length (connects delta) = length devices.
Proof.
  revert result w. induction devices as [|device rest IH]; intros result w.
  - exists []. simpl. by rewrite app_nil_r.
  - destruct (process_target_connects device timestamp w) as (d1 & H1 & P1 & E1).
    rewrite for_each_device_cons.
    destruct (process_target repr_list device timestamp w) as [[line|e] w1]; simpl in *.
    + destruct (E1 line eq_refl) as (host & Hip & Hd1). rewrite Hip.
      destruct (IH (result ++ [line]) w1) as (d2 & H2 & P2 & E2).
      exists (d1 ++ d2). rewrite H2, H1, app_assoc, connects_app, Hd1.
      split; [done|]. split.
      * by apply (prefix_app [host]).
      * intros lines Hlines. destruct (E2 lines Hlines) as [-> Hlen].
        split; [done|]. simpl. by rewrite <- Hlen.
    + exists d1. split; [done|]. split; [|done].
      destruct (device !! "ip") as [host|]; simpl in *.
      * etrans; [exact P1|]. apply prefix_cons, prefix_nil.
      * apply prefix_nil_inv in P1 as ->. apply prefix_nil.
Qed.

(** X16: the inventory decides whether anything runs at all.  With no inventory
    file, or with one the reader rejects, [main] raises before a single
    device is contacted and the world is as it was; with an inventory that
    lists no device, [main] contacts nobody and prints one empty line. *)
Theorem main_inventory_edges w :
  (fs w !! DEVICE_FILE_PATH = None →
   main DictReader repr_list w = (Raise FileNotFoundError, w))
  ∧ (∀ text e,
       fs w !! DEVICE_FILE_PATH = Some (File text) →
       DictReader text = Raise e →
       main DictReader repr_list w = (Raise e, w))
  ∧ (∀ text,
       fs w !! DEVICE_FILE_PATH = Some (File text) →
       DictReader text = Ok [] →
       main DictReader repr_list w = (Ok (), add_event (EvPrint "") w)).
Proof.
  unfold main, get_devices_from_file, get_current_date_and_time. run.
  split; [by intros ->|]. split.
  - intros text e -> H. simpl. by rewrite H.
  - intros text -> H. simpl. by rewrite H.
Qed.

End Fleet.

(** * What a pipeline leaves alone *)

Ltac keeps_step :=
  first
    [ apply keeps_entries_bind; [|intros ?]
    | apply keeps_entries_call
    | apply keeps_entries_same; intros; reflexivity ].

Ltac keeps := repeat keeps_step.

Section Untouched.

Context `{nm : Netmiko}.
Variable repr_list : list string → string.

Implicit Types (c : connection) (w : world) (device : device).

Lemma keeps_entries_weaken {A} (P Q : string → Prop) (m : M A) :
  (∀ q, P q → Q q) → keeps_entries P m → keeps_entries Q m.
Proof. intros HPQ Hm w q n HQ. apply Hm. intros HP. by apply HQ, HPQ. Qed.

Lemma keeps_entries_bind_result {A B} P (R : A → Prop) (m : M A) (k : A → M B) :
  keeps_entries P m →
  (∀ w a w1, m w = (Ok a, w1) → R a) →
  (∀ a, R a → keeps_entries P (k a)) →
  keeps_entries P (bind m k).
Proof.
  intros Hm HR Hk w q n HP Hq. specialize (Hm w q n HP Hq). unfold bind.
  destruct (m w) as [[a|e] w1] eqn:Hmw; simpl in *; [|done].
  apply Hk; [by eapply HR|done..].
Qed.

Lemma keeps_entries_connect_to_device P device : keeps_entries P (connect_to_device device).
Proof. unfold connect_to_device. keeps. Qed.

Lemma keeps_entries_check_cdp_neighbours_count P c :
  keeps_entries P (check_cdp_neighbours_count c).
Proof.
  unfold check_cdp_neighbours_count.
  apply keeps_entries_bind; [keeps|]. intros [| |records]; keeps.
Qed.

Lemma keeps_entries_check_version P c : keeps_entries P (check_version c).
Proof.
  unfold check_version.
  apply keeps_entries_bind; [keeps|]. intros [|[|]|[|first rest]]; keeps.
Qed.

Lemma keeps_entries_set_timezone P c : keeps_entries P (set_timezone c).
Proof. unfold set_timezone. keeps. Qed.

Lemma keeps_entries_ping_ntp P c server : keeps_entries P (ping_ntp c server).
Proof.
  unfold ping_ntp.
  apply keeps_entries_bind; [keeps|]. intros _.
  apply keeps_entries_bind; [keeps|]. intros o.
  apply keeps_entries_bind; [keeps|]. intros [|]; keeps.
Qed.

Lemma keeps_entries_check_ntp P c server : keeps_entries P (check_ntp c server).
Proof. unfold check_ntp. keeps. Qed.

Lemma keeps_entries_disconnect_from_device P c hostname :
  keeps_entries P (disconnect_from_device c hostname).
Proof. unfold disconnect_from_device. keeps. Qed.

(** X7: a pipeline changes nothing that exists in the file system except its
    own backup file: every other file and directory is afterwards what it
    was before, whether the pipeline returns or raises. *)
Theorem process_target_keeps_entries device timestamp w q n :
  (∀ hostname, device !! "hostname" = Some hostname →
     q ≠ Os.join BACKUP_DIR_PATH [hostname; hostname +:+ "-" +:+ timestamp +:+ ".txt"]) →
  fs w !! q = Some n →
  fs (process_target repr_list device timestamp w).2 !! q = Some n.
Proof.
  intros Hq.
  apply (keeps_entries_bind
           (λ q, ∃ hostname, device !! "hostname" = Some hostname
                 ∧ q = Os.join BACKUP_DIR_PATH
                         [hostname; hostname +:+ "-" +:+ timestamp +:+ ".txt"])).
  - apply keeps_entries_connect_to_device.
  - intros c. apply keeps_entries_bind_lift. intros hostname Hhostname.
    unfold getitem in Hhostname.
    destruct (device !! "hostname") as [h|] eqn:Hh; [|done].
    injection Hhostname as ->.
    apply (keeps_entries_bind_result _
             (λ path, path = Os.join BACKUP_DIR_PATH
                               [hostname; hostname +:+ "-" +:+ timestamp +:+ ".txt"])).
    { eapply keeps_entries_weaken; [|apply keeps_entries_get_backup_file_path]. done. }
    { intros w0 path w1 Hpath. by eapply get_backup_file_path_returns. }
    intros path ->.
    apply keeps_entries_bind_lift. intros hostname' _.
    apply keeps_entries_bind.
    { eapply keeps_entries_weaken; [|apply keeps_entries_create_backup].
      intros q' ->. by exists hostname. }
    intros _.
    apply keeps_entries_bind; [apply keeps_entries_check_cdp_neighbours_count|].
    intros cdp.
    apply keeps_entries_bind; [apply keeps_entries_check_version|].
    intros [[[h' hw] v] cls].
    apply keeps_entries_bind; [apply keeps_entries_set_timezone|]. intros _.
    apply keeps_entries_bind; [apply keeps_entries_ping_ntp|]. intros _.
    apply keeps_entries_bind; [apply keeps_entries_check_ntp|]. intros ntp.
    apply keeps_entries_bind_lift. intros hostname'' _.
    apply keeps_entries_bind; [apply keeps_entries_disconnect_from_device|].
    intros _. keeps.
  - intros (hostname & Hhostname & ->). by apply (Hq hostname).
Qed.

End Untouched.

(** * More runs on the scripted network *)

(** The ping on a network where the server does not answer. *)
Lemma ping_ntp_marker_witness :
  ∃ reachable,
    (@ping_ntp scripted "10.0.0.1" NTP_SERVER
       (fresh (answering ("ping " +:+ NTP_SERVER +:+ newline) (Ok (Raw "U.....U"))))).1
    = Ok reachable
    ∧ (reachable = false ↔ occurs_in "....." "U.....U").
Proof.
  apply (@ping_ntp_marker scripted "10.0.0.1" NTP_SERVER
           (fresh (answering ("ping " +:+ NTP_SERVER +:+ newline) (Ok (Raw "U.....U"))))
           "U.....U"
           (answering ("ping " +:+ NTP_SERVER +:+ newline) (Ok (Raw "U.....U"))));
    reflexivity.
Defined.

(** A record with an image name and an empty hardware list. *)
Lemma check_version_empty_hardware_raises_witness :
  let record : gmap string field :=
    {[ "hardware" := FList []; "running_image" := FStr "c2960-npe.bin" ]} in
  (@check_version scripted "10.0.0.1"
     (fresh (answering "sh ver" (Ok (Structured [record]))))).1
  = Raise IndexError.
Proof.
  intros record.
  apply (@check_version_empty_hardware_raises scripted "10.0.0.1"
           (fresh (answering "sh ver" (Ok (Structured [record]))))
           record [] (answering "sh ver" (Ok (Structured [record]))));
    reflexivity.
Defined.

(** A record with one column the extractor does not read. *)
Lemma check_version_missing_keys_witness :
  let record : gmap string field := {[ "uptime" := FStr "1 week" ]} in
  (@check_version scripted "10.0.0.1"
     (fresh (answering "sh ver" (Ok (Structured [record]))))).1
  = Ok (FStr "", "", "", "PE").
Proof.
  intros record.
  apply (@check_version_missing_keys scripted "10.0.0.1"
           (fresh (answering "sh ver" (Ok (Structured [record]))))
           record [] (answering "sh ver" (Ok (Structured [record]))));
    reflexivity.
Defined.

(** The version of r1 on the healthy network. *)
Lemma check_version_upper_and_class_witness :
  all_chars (λ ch, negb (is_lower ch)) "15.2(4)E" = true
  ∧ ("PE" = "" ∨ "PE" = "NPE" ∨ "PE" = "PE").
Proof.
  apply (@check_version_upper_and_class scripted "10.0.0.1" (fresh healthy)
           (FStr "r1") "C2960" "15.2(4)E" "PE"
           (@check_version scripted "10.0.0.1" (fresh healthy)).2).
  vm_compute. reflexivity.
Defined.

(** The inventory file is still there after the backup path of r1 is made. *)
Lemma get_backup_file_path_keeps_entries_witness :
  fs (@get_backup_file_path scripted "r1" "T" (office healthy)).2 !! DEVICE_FILE_PATH
  = Some (File inventory_text).
Proof.
  apply (@get_backup_file_path_keeps_entries scripted "r1" "T" (office healthy)).
  reflexivity.
Defined.

(** Asking twice for the backup path of r1. *)
Lemma get_backup_file_path_again_witness :
  let w1 := (@get_backup_file_path scripted "r1" "T" (fresh healthy)).2 in
  ∃ p' w2,
    @get_backup_file_path scripted "r1" "U" w1 = (Ok p', w2) ∧ fs w2 = fs w1.
Proof.
  intros w1.
  apply (@get_backup_file_path_again scripted "r1" "T" "U" (fresh healthy)
           "backups/r1/r1-T.txt" w1).
  vm_compute. reflexivity.
Defined.

(** The inventory file is still there after the backup of r1. *)
Lemma create_backup_keeps_entries_witness :
  fs (@create_backup scripted "10.0.0.1" "backups/r1/r1-T.txt" "r1" (office healthy)).2
  !! DEVICE_FILE_PATH
  = Some (File inventory_text).
Proof.
  apply (@create_backup_keeps_entries scripted "10.0.0.1" "backups/r1/r1-T.txt" "r1"
           (office healthy)); [discriminate | reflexivity].
Defined.

(** The backup of r1 in an empty working directory. *)
Lemma backup_lands_in_its_directory_witness :
  let w1 := (@get_backup_file_path scripted "r1" "T" (fresh healthy)).2 in
  ∃ w2,
    @create_backup scripted "10.0.0.1" "backups/r1/r1-T.txt" "r1" w1 = (Ok true, w2)
    ∧ fs w2 !! "backups/r1/r1-T.txt" = Some (File "hostname r1").
Proof.
  intros w1.
  apply (@backup_lands_in_its_directory scripted "r1" "T" "10.0.0.1" (fresh healthy)
           "backups/r1/r1-T.txt" w1 "hostname r1" healthy healthy);
    try discriminate; vm_compute; reflexivity.
Defined.

(** The order of r1's pipeline when the device rejects the timezone line. *)
Lemma process_target_order_witness :
  let w := fresh (Script (λ _, Ok ()) (λ _, Ok ()) (λ _, healthy_command)
                         (λ _ _, Raise (LibraryError "invalid input"))
                         (λ _, Ok ())) in
  ∃ delta,
    trace (@process_target scripted plain_repr r1 "T" w).2 = trace w ++ delta
    ∧ actions delta `prefix_of` pipeline_actions "10.0.0.1"
    ∧ ∀ line, (@process_target scripted plain_repr r1 "T" w).1 = Ok line →
        actions delta = pipeline_actions "10.0.0.1".
Proof.
  intros w.
  apply (@process_target_order scripted plain_repr r1 "T" w "10.0.0.1").
  reflexivity.
Defined.

(** A row without a password. *)
Lemma connect_to_device_missing_key_witness :
  ∃ before missing after,
    CONNECT_KEYS = before ++ missing :: after
    ∧ (∀ k, k ∈ before → is_Some (delete "password" r1 !! k))
    ∧ delete "password" r1 !! missing = None
    ∧ @connect_to_device scripted (delete "password" r1) (fresh healthy)
      = (Raise (KeyError missing), fresh healthy).
Proof.
  apply (@connect_to_device_missing_key scripted (delete "password" r1)
           (fresh healthy) "password").
  - unfold CONNECT_KEYS. set_solver.
  - reflexivity.
Defined.

(** A row without a hostname. *)
Lemma process_target_missing_hostname_witness :
  (@process_target scripted plain_repr (delete "hostname" r1) "T" (fresh healthy)).1
  = Raise (KeyError "hostname")
  ∧ actions
      (trace (@process_target scripted plain_repr (delete "hostname" r1) "T"
                (fresh healthy)).2)
    = [EvConnect "10.0.0.1"].
Proof.
  rewrite (@process_target_missing_hostname scripted plain_repr
             (delete "hostname" r1) "T" (fresh healthy)
             "10.0.0.1" "admin" "cisco" "cisco_ios" "class" "10.0.0.1" healthy);
    try reflexivity.
  split; reflexivity.
Defined.

(** The inventory file is still there after the pipeline of r1. *)
Lemma process_target_keeps_entries_witness :
  fs (@process_target scripted plain_repr r1 "T" (office healthy)).2 !! DEVICE_FILE_PATH
  = Some (File inventory_text).
Proof.
  apply (@process_target_keeps_entries scripted plain_repr r1 "T" (office healthy)).
  - intros hostname [= <-]. discriminate.
  - reflexivity.
Defined.

(** The backup path of r1, in an empty working directory. *)
Lemma backup_path_and_write_witness :
  hostname_component "r1"
  ∧ ∃ w', @get_backup_file_path scripted "r1" "T" (fresh healthy)
          = (Ok "backups/r1/r1-T.txt", w')
          ∧ fs w' !! "backups/r1" = Some Dir
          ∧ fs w' !! "backups" = Some Dir.
Proof.
  assert (hostname_component "r1") as Hname
    by (split; [discriminate | split; [discriminate | split; [discriminate | reflexivity]]]).
  split; [exact Hname|].
  apply (proj1 (proj2 (proj2 (@backup_path_and_write scripted "r1" "T" Hname))));
    reflexivity.
Defined.

(** C9 as stated fails on a hostname that starts with a separator:
    [os.path.join] drops what comes before it, backup root included.  With
    the hostname "/tmp", a directory that exists, nothing is created and
    the backup path is /tmp-T.txt, in the root. *)
Lemma backup_path_absolute_hostname :
  @get_backup_file_path scripted "/tmp" "T" (with_tmp healthy)
  = (Ok "/tmp-T.txt",
     add_event (EvPrint "Backup file path will be /tmp-T.txt") (with_tmp healthy))
  ∧ "/tmp-T.txt"
    ≠ BACKUP_DIR_PATH +:+ "/" +:+ "/tmp" +:+ "/" +:+ "/tmp" +:+ "-" +:+ "T" +:+ ".txt".
Proof. split; [vm_compute; reflexivity | discriminate]. Qed.

(** * A backup that fails *)

Lemma commands_app t1 t2 : commands (t1 ++ t2) = commands t1 ++ commands t2.
Proof. apply omap_app. Qed.

Lemma commands_actions t : commands (actions t) = commands t.
Proof.
  induction t as [|e t IH]; [done|].
  destruct e; simpl; by rewrite ?IH.
Qed.

Lemma commands_prefix t1 t2 : t1 `prefix_of` t2 → commands t1 `prefix_of` commands t2.
Proof. intros [k ->]. rewrite commands_app. by apply prefix_app_r. Qed.

Section BackupFailure.

Context `{nm : Netmiko}.
Variable repr_list : list string → string.

Implicit Types (c : connection) (w : world) (device : device).

(** The two failures of the backup step: the device refuses "sh run", or
    the file cannot be opened for writing. *)
Lemma create_backup_fails_on_command c path hostname w n1 e n2 :
  conn_enable c (net w) = (Ok (), n1) →
  conn_send_command c "sh run" false n1 = (Raise e, n2) →
  (create_backup c path hostname w).1 = Raise (NameError "Error").
Proof.
  intros Henable Hsend. unfold create_backup, try_except. run_with Henable.
  by rewrite Hsend.
Qed.

Lemma create_backup_fails_on_open c path hostname w n1 o n2 e :
  conn_enable c (net w) = (Ok (), n1) →
  conn_send_command c "sh run" false n1 = (Ok o, n2) →
  Os.open_w path (fs w) = Raise e →
  (create_backup c path hostname w).1 = Raise (NameError "Error").
Proof.
  intros Henable Hsend Hopen. unfold create_backup, try_except. run_with Henable.
  rewrite Hsend. simpl. by rewrite Hopen.
Qed.

(** C4 (the code departs from it): when the backup step fails, that is
    when [create_backup] does not return [True], the pipeline raises
    [NameError] out of [create_backup].  It returns no line, the world it
    leaves is the one the backup left, so that no inspection step has run,
    and "sh run" is the only command the backup can have sent. *)
Theorem backup_failure_raises_name_error device timestamp w c hostname path w1 w2 :
  connect_to_device device w = (Ok c, w1) →
  device !! "hostname" = Some hostname →
  get_backup_file_path hostname timestamp w1 = (Ok path, w2) →
  (create_backup c path hostname w2).1 ≠ Ok true →
  process_target repr_list device timestamp w
  = (Raise (NameError "Error"), (create_backup c path hostname w2).2)
  ∧ ∃ delta,
      trace (create_backup c path hostname w2).2 = trace w2 ++ delta
      ∧ commands delta `prefix_of` ["sh run"].
Proof.
  intros Hconnect Hhostname Hpath Hfails. split.
  - destruct (create_backup_outcomes c path hostname w2) as [Htrue|Hraise]; [done|].
    unfold process_target, bind at 1. rewrite Hconnect.
    unfold bind at 1, lift, getitem. rewrite Hhostname.
    unfold bind at 1. rewrite Hpath.
    unfold bind at 1. simpl.
    unfold bind at 1.
    destruct (create_backup c path hostname w2) as [r w3]. simpl in *. by subst r.
  - destruct (follows_create_backup c path hostname w2) as (delta & Ht & Hprefix & _).
    exists delta. split; [done|].
    rewrite <- commands_actions. by apply commands_prefix in Hprefix.
Qed.

End BackupFailure.

(** The pipeline of r1 when the device refuses "sh run". *)
Lemma backup_failure_raises_name_error_witness :
  let w := fresh (answering "sh run" (Raise (LibraryError "timed out"))) in
  (@process_target scripted plain_repr r1 "T" w).1 = Raise (NameError "Error")
  ∧ commands (trace (@process_target scripted plain_repr r1 "T" w).2) = ["sh run"].
Proof.
  intros w.
  pose (w1 := (@connect_to_device scripted r1 w).2).
  pose (w2 := (@get_backup_file_path scripted "r1" "T" w1).2).
  destruct (@backup_failure_raises_name_error scripted plain_repr r1 "T" w
              "10.0.0.1" "r1" "backups/r1/r1-T.txt" w1 w2) as [Hrun _].
  - vm_compute. reflexivity.
  - reflexivity.
  - vm_compute. reflexivity.
  - vm_compute. discriminate.
  - rewrite Hrun. split; [reflexivity | vm_compute; reflexivity].
Defined.
